(** * Order placement and order status workflow of the campus food-ordering
    backend (controllers/orderController.ts, routes/orderRoutes.ts,
    middleware/auth.ts, types/orderTypes.ts, prisma/schema.prisma).

    The controller is embedded as pure functions over an explicit database
    state.  JavaScript numbers are IEEE 754 binary64 values, so they are
    modelled by Rocq's primitive floats; [Decimal(8,2)] catalog prices are
    integers counting cents, and [Number(price)] is the correctly rounded
    quotient by 100. *)

From Stdlib Require Import ZArith PrimFloat Uint63 FloatOps SpecFloat.
From Stdlib Require FloatAxioms.
From stdpp Require Import base option list gmap strings pretty sorting.

Local Open Scope string_scope.
Local Open Scope list_scope.
Local Open Scope Z_scope.

(** ** JavaScript numbers *)

Module JS.

Definition number := float.

(** A non-negative integer below 2^63 as a number (exact below 2^53). *)
Definition of_nonneg (z : Z) : number := PrimFloat.of_uint63 (Uint63.of_Z z).

Definition of_Z (z : Z) : number :=
  if z <? 0 then PrimFloat.opp (of_nonneg (- z)) else of_nonneg z.

(** [Number(d)] for a [Decimal(8,2)] value [d] held as [cents]: the double
    nearest to cents/100, which the correctly rounded division computes. *)
Definition Number_of_cents (cents : Z) : number :=
  PrimFloat.div (of_Z cents) (of_Z 100).

(** Truthiness of a number: [0], [-0] and [NaN] are falsy. *)
Definition truthy (x : number) : bool :=
  negb (PrimFloat.eqb x (of_Z 0)) && PrimFloat.eqb x x.

(** [x || d] on numbers, with [None] standing for [undefined]. *)
Definition or_default (x : option number) (d : number) : number :=
  match x with
  | Some v => if truthy v then v else d
  | None => d
  end.

(** [s || null] on strings: the empty string is falsy. *)
Definition str_or_null (s : option string) : option string :=
  match s with
  | Some v => if decide (v = "") then None else Some v
  | None => None
  end.

(** The integer a number denotes, when it denotes one. *)
Definition to_Z (x : number) : option Z :=
  match Prim2SF x with
  | S754_zero _ => Some 0
  | S754_finite s m e =>
      let mag :=
        if 0 <=? e then Some (Z.pos m * 2 ^ e)
        else if Z.pos m mod 2 ^ (- e) =? 0 then Some (Z.pos m / 2 ^ (- e))
        else None in
      (fun v : Z => if s then - v else v) <$> mag
  | _ => None
  end.

End JS.

(** ** Data model (prisma/schema.prisma) *)

Inductive OrderStatus := PENDING | PREPARING | READY | DELIVERED | CANCELLED.
Inductive PaymentMethod := YAPE | PLIN | TUNKI | CASH.
Inductive NotificationType := ORDER | PROMO | SYSTEM.

Global Instance OrderStatus_eq_dec : EqDecision OrderStatus.
Proof. solve_decision. Defined.
Global Instance PaymentMethod_eq_dec : EqDecision PaymentMethod.
Proof. solve_decision. Defined.

(** The enum literals, as the strings the controller compares. *)
Definition status_name (s : OrderStatus) : string :=
  match s with
  | PENDING => "PENDING"
  | PREPARING => "PREPARING"
  | READY => "READY"
  | DELIVERED => "DELIVERED"
  | CANCELLED => "CANCELLED"
  end.

Definition all_statuses : list OrderStatus :=
  [PENDING; PREPARING; READY; DELIVERED; CANCELLED].

Definition parse_status (s : string) : option OrderStatus :=
  List.find (fun st => bool_decide (status_name st = s)) all_statuses.

Definition payment_name (m : PaymentMethod) : string :=
  match m with
  | YAPE => "YAPE"
  | PLIN => "PLIN"
  | TUNKI => "TUNKI"
  | CASH => "CASH"
  end.

Definition parse_payment (s : string) : option PaymentMethod :=
  List.find (fun m => bool_decide (payment_name m = s)) [YAPE; PLIN; TUNKI; CASH].

Module User.
Record t := mk {
  id : Z;
  email : string;
  firstName : string;
  lastName : string;
  phone : option string;
}.
End User.

Module Product.
Record t := mk {
  id : Z;
  name : string;
  description : option string;
  price : Z;                     (* Decimal(8,2), in cents *)
  imageUrl : option string;
  isAvailable : bool;
}.
End Product.

Module Order.
Record t := mk {
  id : Z;
  userId : Z;
  status : OrderStatus;
  deliveryLocation : string;
  paymentMethod : PaymentMethod;
  subtotal : JS.number;
  deliveryFee : JS.number;
  total : JS.number;
  notes : option string;
  createdAt : Z;
  updatedAt : Z;
}.
End Order.

Module OrderItem.
Record t := mk {
  id : Z;
  orderId : Z;
  productId : Z;
  quantity : JS.number;
  unitPrice : JS.number;
  customizations : option (list (string * string));
  specialNotes : option string;
  subtotal : JS.number;
  createdAt : Z;
}.
End OrderItem.

Module Notification.
Record t := mk {
  id : Z;
  userId : Z;
  title : string;
  message : string;
  type : NotificationType;
  isRead : bool;
  orderId : option Z;
  createdAt : Z;
}.
End Notification.

(** The database: products, users and orders are keyed by their primary key;
    order items and notifications are kept in insertion order. *)
Record DB := mkDB {
  users : gmap Z User.t;
  products : gmap Z Product.t;
  orders : gmap Z Order.t;
  orderItems : list OrderItem.t;
  notifications : list Notification.t;
}.

(** Primary keys are [@default(autoincrement())]: a key larger than every key
    in use. *)
Definition next_key {A} (m : gmap Z A) : Z :=
  1 + map_fold (fun k _ acc => Z.max k acc) 0 m.

Definition next_row {A} (l : list A) : Z := 1 + Z.of_nat (length l).

(** An [Int] column holds a 32-bit signed integer. *)
Definition is_Int (x : JS.number) : bool :=
  match JS.to_Z x with
  | Some z => (- 2 ^ 31 <=? z) && (z <? 2 ^ 31)
  | None => false
  end.

(** ** Requests (types/orderTypes.ts) *)

Module JWTPayload.
Record t := mk { userId : Z; email : string; role : string }.
End JWTPayload.

Module OrderItemInput.
Record t := mk {
  productId : Z;
  quantity : option JS.number;
  customizations : option (list (string * string));
  specialNotes : option string;
}.
End OrderItemInput.

Module CreateOrderInput.
Record t := mk {
  items : option (list OrderItemInput.t);
  deliveryLocation : option string;
  paymentMethod : option string;
  notes : option string;
}.
End CreateOrderInput.

Module ProcessedOrderItem.
Record t := mk {
  productId : Z;
  quantity : JS.number;
  unitPrice : JS.number;
  customizations : option (list (string * string));
  specialNotes : option string;
  subtotal : JS.number;
}.
End ProcessedOrderItem.

(** ** Responses *)

Inductive Failure :=
| INVALID_INPUT (details : list string)        (* ValidationError *)
| NO_ITEMS_IN_ORDER                            (* EmptyOrder *)
| PRODUCT_NOT_FOUND (productId : Z)            (* ProductNotFound *)
| PRODUCT_NOT_AVAILABLE (name : string)        (* ProductUnavailable *)
| MINIMUM_ORDER_NOT_MET                        (* MinimumOrderNotMet *)
| ORDER_CREATE_ERROR                           (* InternalFailure *)
| INVALID_ORDER_ID
| ORDER_NOT_FOUND                              (* OrderNotFound *)
| ORDER_ACCESS_DENIED                          (* OrderAccessDenied *)
| ORDER_CANNOT_BE_CANCELLED                    (* OrderCannotBeCancelled *)
| ORDER_CANCEL_ERROR                           (* InternalFailure *)
| INVALID_STATUS_TRANSITION (from : OrderStatus) (to : string)
| ORDER_STATUS_UPDATE_ERROR.                   (* InternalFailure *)

Definition http_status (f : Failure) : Z :=
  match f with
  | PRODUCT_NOT_FOUND _ | ORDER_NOT_FOUND => 404
  | ORDER_ACCESS_DENIED => 403
  | ORDER_CREATE_ERROR | ORDER_CANCEL_ERROR | ORDER_STATUS_UPDATE_ERROR => 500
  | _ => 400
  end.

Module ProductSummary.
Record t := mk {
  id : Z;
  name : string;
  description : option string;
  imageUrl : option string;
  price : Z;
}.
End ProductSummary.

Module OrderView.
Record line := mkLine {
  item : OrderItem.t;
  product : option ProductSummary.t;
}.
Record t := mk {
  order : Order.t;
  orderItems : list line;
  user : option User.t;
}.
End OrderView.

Inductive Response :=
| Created (data : option OrderView.t)          (* 201 *)
| Fetched (data : OrderView.t)                 (* 200 *)
| Updated (data : Order.t)                     (* 200 *)
| Failed (f : Failure).

Definition is_success (r : Response) : bool :=
  match r with Failed _ => false | _ => true end.

(** ** Request validation (express-validator)

    [validationResult(req)] collects the messages of the validation chains
    that ran as middleware of the route. *)
Definition ValidationChain (B : Type) := list (B -> list string).

Definition validationResult {B} (chain : ValidationChain B) (body : B) : list string :=
  flat_map (fun v => v body) chain.

(** routes/orderRoutes.ts: [router.post("/", authenticateToken,
    OrderController.createOrder)] and [router.patch("/admin/:id/status",
    authenticateToken, requireAdmin, OrderController.updateOrderStatus)]
    register no validation chain. *)
Definition post_orders_chain : ValidationChain CreateOrderInput.t := [].
Definition patch_status_chain : ValidationChain string := [].

(** ** The store *)

Module OrderCreate.
Record t := mk {
  userId : Z;
  deliveryLocation : option string;
  paymentMethod : option string;
  subtotal : JS.number;
  deliveryFee : JS.number;
  total : JS.number;
  notes : option string;
  status : string;
}.
End OrderCreate.

Module NotificationCreate.
Record t := mk {
  userId : Z;
  title : string;
  message : string;
  type : NotificationType;
  orderId : Z;
}.
End NotificationCreate.

(** The writes the controller issues. *)
Inductive Write :=
| W_order_create (data : OrderCreate.t)
| W_orderItem_create (orderId : Z) (item : ProcessedOrderItem.t)
| W_notification_create (data : NotificationCreate.t)
| W_order_update (id : Z) (status : string).

(** A store call either returns or throws ([None]); the state it leaves
    holds what was written until then. *)
Definition Tx (A : Type) : Type := DB -> DB * option A.

Definition tx_ret {A} (a : A) : Tx A := fun db => (db, Some a).

Definition tx_bind {A B} (m : Tx A) (f : A -> Tx B) : Tx B :=
  fun db =>
    match m db with
    | (db1, Some a) => f a db1
    | (db1, None) => (db1, None)
    end.

Notation "'let*' x ':=' m 'in' k" := (tx_bind m (fun x => k))
  (at level 10, x name, m at level 100, k at level 200).

Fixpoint tx_for {A} (l : list A) (body : A -> Tx unit) : Tx unit :=
  match l with
  | [] => tx_ret tt
  | a :: l' => let* _ := body a in tx_for l' body
  end.

(** [prisma.$transaction(cb)]: the writes of [cb] are committed together when
    it returns, and none of them is when it throws. *)
Definition transaction {A} (cb : Tx A) : Tx A :=
  fun db =>
    match cb db with
    | (db1, Some a) => (db1, Some a)
    | (_, None) => (db, None)
    end.

Definition set_orders (db : DB) (os : gmap Z Order.t) : DB :=
  mkDB (users db) (products db) os (orderItems db) (notifications db).

Definition add_orderItem (db : DB) (it : OrderItem.t) : DB :=
  mkDB (users db) (products db) (orders db) (orderItems db ++ [it]) (notifications db).

Definition add_notification (db : DB) (n : Notification.t) : DB :=
  mkDB (users db) (products db) (orders db) (orderItems db) (notifications db ++ [n]).

(** [o] with its status set at time [now]. *)
Definition with_status (o : Order.t) (st : OrderStatus) (now : Z) : Order.t :=
  Order.mk (Order.id o) (Order.userId o) st (Order.deliveryLocation o)
    (Order.paymentMethod o) (Order.subtotal o) (Order.deliveryFee o)
    (Order.total o) (Order.notes o) (Order.createdAt o) now.

Section Store.

(** Whether the storage layer carries out a write that fits the schema
    (connection, constraints, time-outs). *)
Variable accepts : Write -> bool.

(** [tx.order.create({data})]: [deliveryLocation] is a required column,
    [paymentMethod] and [status] are enum columns. *)
Definition order_create (now : Z) (data : OrderCreate.t) : Tx Order.t :=
  fun db =>
    match OrderCreate.deliveryLocation data,
          OrderCreate.paymentMethod data ≫= parse_payment,
          parse_status (OrderCreate.status data) with
    | Some loc, Some pm, Some st =>
        if accepts (W_order_create data) then
          let o := Order.mk (next_key (orders db)) (OrderCreate.userId data) st
                     loc pm (OrderCreate.subtotal data)
                     (OrderCreate.deliveryFee data) (OrderCreate.total data)
                     (OrderCreate.notes data) now now in
          (set_orders db (<[Order.id o := o]> (orders db)), Some o)
        else (db, None)
    | _, _, _ => (db, None)
    end.

(** [tx.orderItem.create({data: {orderId, ...item}})]: [quantity] is an
    [Int] column. *)
Definition orderItem_create (now : Z) (orderId : Z) (item : ProcessedOrderItem.t)
  : Tx unit :=
  fun db =>
    if is_Int (ProcessedOrderItem.quantity item)
       && accepts (W_orderItem_create orderId item) then
      let it := OrderItem.mk (next_row (orderItems db)) orderId
                  (ProcessedOrderItem.productId item)
                  (ProcessedOrderItem.quantity item)
                  (ProcessedOrderItem.unitPrice item)
                  (ProcessedOrderItem.customizations item)
                  (ProcessedOrderItem.specialNotes item)
                  (ProcessedOrderItem.subtotal item) now in
      (add_orderItem db it, Some tt)
    else (db, None).

(** [tx.notification.create({data})]; [isRead] defaults to [false]. *)
Definition notification_create (now : Z) (data : NotificationCreate.t) : Tx unit :=
  fun db =>
    if accepts (W_notification_create data) then
      let n := Notification.mk (next_row (notifications db))
                 (NotificationCreate.userId data) (NotificationCreate.title data)
                 (NotificationCreate.message data) (NotificationCreate.type data)
                 false (Some (NotificationCreate.orderId data)) now in
      (add_notification db n, Some tt)
    else (db, None).

(** [tx.order.update({where: {id}, data: {status}})]; [updatedAt] is
    [@updatedAt]. *)
Definition order_update (now : Z) (id : Z) (status : string) : Tx Order.t :=
  fun db =>
    match orders db !! id, parse_status status with
    | Some o, Some st =>
        if accepts (W_order_update id status) then
          let o' := with_status o st now in
          (set_orders db (<[id := o']> (orders db)), Some o')
        else (db, None)
    | _, _ => (db, None)
    end.

End Store.

(** ** The controller (controllers/orderController.ts) *)

Module OrderWhere.
Record t := mk { id : Z; userId : option Z }.
End OrderWhere.

(** [prisma.order.findUnique({where})]. *)
Definition order_findUnique (w : OrderWhere.t) (db : DB) : option Order.t :=
  match orders db !! OrderWhere.id w with
  | Some o =>
      match OrderWhere.userId w with
      | Some u => if bool_decide (Order.userId o = u) then Some o else None
      | None => Some o
      end
  | None => None
  end.

(** The [include] of [createOrder] and [getOrderById]: the order's lines,
    each with a summary of its product, and the owning user.  Only
    [getOrderById] selects the product's description ([detailed]). *)
Definition product_summary (detailed : bool) (p : Product.t) : ProductSummary.t :=
  ProductSummary.mk (Product.id p) (Product.name p)
    (if detailed then Product.description p else None)
    (Product.imageUrl p) (Product.price p).

Definition include_relations (detailed : bool) (db : DB) (o : Order.t) : OrderView.t :=
  OrderView.mk o
    (List.map
       (fun it => OrderView.mkLine it
                    (product_summary detailed <$> products db !! OrderItem.productId it))
       (List.filter (fun it => bool_decide (OrderItem.orderId it = Order.id o))
          (orderItems db)))
    (users db !! Order.userId o).

(** The pricing loop of [createOrder]: [subtotal] and [orderItems] are the
    loop's accumulators; a line that cannot be priced ends the request. *)
Fixpoint process_items (catalog : gmap Z Product.t) (items : list OrderItemInput.t)
    (subtotal : JS.number) (orderItems : list ProcessedOrderItem.t)
  : Failure + JS.number * list ProcessedOrderItem.t :=
  match items with
  | [] => inr (subtotal, orderItems)
  | item :: rest =>
      match catalog !! OrderItemInput.productId item with
      | None => inl (PRODUCT_NOT_FOUND (OrderItemInput.productId item))
      | Some product =>
          if negb (Product.isAvailable product) then
            inl (PRODUCT_NOT_AVAILABLE (Product.name product))
          else
            let quantity := JS.or_default (OrderItemInput.quantity item) (JS.of_Z 1) in
            let unitPrice := JS.Number_of_cents (Product.price product) in
            let itemSubtotal := PrimFloat.mul unitPrice quantity in
            process_items catalog rest (PrimFloat.add subtotal itemSubtotal)
              (orderItems ++
               [ProcessedOrderItem.mk (OrderItemInput.productId item) quantity unitPrice
                  (OrderItemInput.customizations item)
                  (JS.str_or_null (OrderItemInput.specialNotes item))
                  itemSubtotal])
      end
  end.

Definition validTransitions : gmap string (list string) :=
  list_to_map
    [("PENDING", ["PREPARING"; "CANCELLED"]);
     ("PREPARING", ["READY"; "CANCELLED"]);
     ("READY", ["DELIVERED"; "CANCELLED"]);
     ("DELIVERED", []);
     ("CANCELLED", [])].

Definition statusMessages : gmap string string :=
  list_to_map
    [("PREPARING", "Tu pedido está siendo preparado");
     ("READY", "Tu pedido está listo para entrega");
     ("DELIVERED", "Tu pedido ha sido entregado");
     ("CANCELLED", "Tu pedido ha sido cancelado")].

(** The notifications the controller records. *)
Definition created_notification (userId orderId : Z) : NotificationCreate.t :=
  NotificationCreate.mk userId "Pedido confirmado"
    ("Tu pedido #" +:+ pretty orderId
       +:+ " ha sido confirmado y está siendo procesado.")
    ORDER orderId.

Definition cancelled_notification (userId orderId : Z) : NotificationCreate.t :=
  NotificationCreate.mk userId "Pedido cancelado"
    ("Tu pedido #" +:+ pretty orderId +:+ " ha sido cancelado exitosamente.")
    ORDER orderId.

Definition status_notification (userId orderId : Z) (status : string)
  : NotificationCreate.t :=
  NotificationCreate.mk userId "Estado del pedido actualizado"
    ("Pedido #" +:+ pretty orderId +:+ ": "
       +:+ default "undefined" (statusMessages !! status))
    ORDER orderId.

Section Controller.

Variable accepts : Write -> bool.

(** The callback of the transaction of [createOrder]. *)
Definition createOrder_tx (now userId : Z) (data : OrderCreate.t)
    (orderItems : list ProcessedOrderItem.t) : Tx Order.t :=
  let* newOrder := order_create accepts now data in
  let* _ := tx_for orderItems (orderItem_create accepts now (Order.id newOrder)) in
  let* _ := notification_create accepts now
              (created_notification userId (Order.id newOrder)) in
  tx_ret newOrder.

(** POST /api/orders, for the authenticated [user]. *)
Definition createOrder (now : Z) (user : JWTPayload.t) (body : CreateOrderInput.t)
    (db : DB) : DB * Response :=
  match validationResult post_orders_chain body with
  | _ :: _ as errors => (db, Failed (INVALID_INPUT errors))
  | [] =>
      let userId := JWTPayload.userId user in
      match CreateOrderInput.items body with
      | None | Some [] => (db, Failed NO_ITEMS_IN_ORDER)
      | Some items =>
          match process_items (products db) items (JS.of_Z 0) [] with
          | inl f => (db, Failed f)
          | inr (subtotal, orderItems) =>
              if PrimFloat.ltb subtotal (JS.of_Z 2) then
                (db, Failed MINIMUM_ORDER_NOT_MET)
              else
                let deliveryFee := JS.of_Z 1 in
                let total := PrimFloat.add subtotal deliveryFee in
                let data :=
                  OrderCreate.mk userId (CreateOrderInput.deliveryLocation body)
                    (CreateOrderInput.paymentMethod body) subtotal deliveryFee total
                    (CreateOrderInput.notes body) "PENDING" in
                match transaction (createOrder_tx now userId data orderItems) db with
                | (db1, Some order) =>
                    (db1,
                     Created
                       (include_relations false db1
                          <$> order_findUnique (OrderWhere.mk (Order.id order) None) db1))
                | (db1, None) => (db1, Failed ORDER_CREATE_ERROR)
                end
          end
      end
  end.

(** GET /api/orders/:id; [id] is [parseInt(req.params.id)], [None] when
    that is [NaN]. *)
Definition getOrderById (user : JWTPayload.t) (id : option Z) (db : DB) : Response :=
  match id with
  | None => Failed INVALID_ORDER_ID
  | Some orderId =>
      let whereClause :=
        OrderWhere.mk orderId
          (if bool_decide (JWTPayload.role user ≠ "ADMIN")
           then Some (JWTPayload.userId user) else None) in
      match order_findUnique whereClause db with
      | None => Failed ORDER_NOT_FOUND
      | Some order => Fetched (include_relations true db order)
      end
  end.

(** PATCH /api/orders/:id/cancel, for the authenticated [user]. *)
Definition cancelOrder (now : Z) (user : JWTPayload.t) (id : option Z) (db : DB)
  : DB * Response :=
  let userId := JWTPayload.userId user in
  match id with
  | None => (db, Failed INVALID_ORDER_ID)
  | Some orderId =>
      match order_findUnique (OrderWhere.mk orderId None) db with
      | None => (db, Failed ORDER_NOT_FOUND)
      | Some order =>
          if bool_decide (Order.userId order ≠ userId) then
            (db, Failed ORDER_ACCESS_DENIED)
          else if bool_decide (Order.status order ≠ PENDING) then
            (db, Failed ORDER_CANNOT_BE_CANCELLED)
          else
            match transaction
                    (let* updated := order_update accepts now orderId "CANCELLED" in
                     let* _ := notification_create accepts now
                                 (cancelled_notification userId orderId) in
                     tx_ret updated) db with
            | (db1, Some updatedOrder) => (db1, Updated updatedOrder)
            | (db1, None) => (db1, Failed ORDER_CANCEL_ERROR)
            end
      end
  end.

(** PATCH /api/orders/admin/:id/status (behind [requireAdmin]); [status] is
    the request body's field. *)
Definition updateOrderStatus (now : Z) (id : option Z) (status : string) (db : DB)
  : DB * Response :=
  match validationResult patch_status_chain status with
  | _ :: _ as errors => (db, Failed (INVALID_INPUT errors))
  | [] =>
      match id with
      | None => (db, Failed INVALID_ORDER_ID)
      | Some orderId =>
          match order_findUnique (OrderWhere.mk orderId None) db with
          | None => (db, Failed ORDER_NOT_FOUND)
          | Some order =>
              match validTransitions !! status_name (Order.status order) with
              | None => (db, Failed ORDER_STATUS_UPDATE_ERROR)
              | Some allowed =>
                  if negb (bool_decide (status ∈ allowed)) then
                    (db, Failed (INVALID_STATUS_TRANSITION (Order.status order) status))
                  else
                    match transaction
                            (let* updated := order_update accepts now orderId status in
                             let* _ := notification_create accepts now
                                         (status_notification (Order.userId order)
                                            orderId status) in
                             tx_ret updated) db with
                    | (db1, Some updatedOrder) => (db1, Updated updatedOrder)
                    | (db1, None) => (db1, Failed ORDER_STATUS_UPDATE_ERROR)
                    end
              end
          end
      end
  end.

End Controller.

Definition always : Write -> bool := fun _ => true.

(** ** Vocabulary of the statements *)

(** What a stored order line keeps of the priced line it was created from. *)
Definition row_of_line (now orderId : Z) (line : ProcessedOrderItem.t)
    (row : OrderItem.t) : Prop :=
  OrderItem.orderId row = orderId
  /\ OrderItem.productId row = ProcessedOrderItem.productId line
  /\ OrderItem.quantity row = ProcessedOrderItem.quantity line
  /\ OrderItem.unitPrice row = ProcessedOrderItem.unitPrice line
  /\ OrderItem.customizations row = ProcessedOrderItem.customizations line
  /\ OrderItem.specialNotes row = ProcessedOrderItem.specialNotes line
  /\ OrderItem.subtotal row = ProcessedOrderItem.subtotal line
  /\ OrderItem.createdAt row = now
  /\ is_Int (OrderItem.quantity row) = true.

(** The order row [tx.order.create] inserts for [data]. *)
Definition created_order (now : Z) (data : OrderCreate.t) (db : DB)
    (loc : string) (pm : PaymentMethod) (st : OrderStatus) : Order.t :=
  Order.mk (next_key (orders db)) (OrderCreate.userId data) st loc pm
    (OrderCreate.subtotal data) (OrderCreate.deliveryFee data)
    (OrderCreate.total data) (OrderCreate.notes data) now now.

(** A line can be priced when its product exists and is available. *)
Definition orderable (catalog : gmap Z Product.t) (item : OrderItemInput.t) : Prop :=
  exists p, catalog !! OrderItemInput.productId item = Some p
            /\ Product.isAvailable p = true.

(** The quantity a line is priced with: [item.quantity || 1]. *)
Definition requested_quantity (item : OrderItemInput.t) : JS.number :=
  JS.or_default (OrderItemInput.quantity item) (JS.of_Z 1).

(** [Number(price) * quantity] at the catalog's current price. *)
Definition line_subtotal (catalog : gmap Z Product.t) (item : OrderItemInput.t)
  : JS.number :=
  match catalog !! OrderItemInput.productId item with
  | Some p => PrimFloat.mul (JS.Number_of_cents (Product.price p))
                (requested_quantity item)
  | None => JS.of_Z 0
  end.


(** The priced line of a requested line. *)
Definition priced_from (catalog : gmap Z Product.t) (item : OrderItemInput.t)
    (line : ProcessedOrderItem.t) : Prop :=
  exists p,
    catalog !! OrderItemInput.productId item = Some p
    /\ Product.isAvailable p = true
    /\ ProcessedOrderItem.productId line = OrderItemInput.productId item
    /\ ProcessedOrderItem.quantity line = requested_quantity item
    /\ ProcessedOrderItem.unitPrice line = JS.Number_of_cents (Product.price p)
    /\ ProcessedOrderItem.subtotal line
       = PrimFloat.mul (ProcessedOrderItem.unitPrice line)
           (ProcessedOrderItem.quantity line)
    /\ ProcessedOrderItem.customizations line = OrderItemInput.customizations item
    /\ ProcessedOrderItem.specialNotes line
       = JS.str_or_null (OrderItemInput.specialNotes item).

(** [placed now user body db o lines rows db']: the request [body] of [user]
    was priced into [lines] and stored as the order [o] with the line rows
    [rows], which took [db] to [db']. *)
Record placed (now : Z) (user : JWTPayload.t) (body : CreateOrderInput.t) (db : DB)
    (o : Order.t) (lines : list ProcessedOrderItem.t) (rows : list OrderItem.t)
    (db' : DB) : Prop := {
  placed_items :
    exists items, CreateOrderInput.items body = Some items
                  /\ process_items (products db) items (JS.of_Z 0) []
                     = inr (Order.subtotal o, lines);
  placed_minimum : PrimFloat.ltb (Order.subtotal o) (JS.of_Z 2) = false;
  placed_fresh : orders db !! Order.id o = None;
  placed_userId : Order.userId o = JWTPayload.userId user;
  placed_status : Order.status o = PENDING;
  placed_location : CreateOrderInput.deliveryLocation body = Some (Order.deliveryLocation o);
  placed_payment :
    CreateOrderInput.paymentMethod body ≫= parse_payment = Some (Order.paymentMethod o);
  placed_deliveryFee : Order.deliveryFee o = JS.of_Z 1;
  placed_total : Order.total o = PrimFloat.add (Order.subtotal o) (JS.of_Z 1);
  placed_notes : Order.notes o = CreateOrderInput.notes body;
  placed_times : Order.createdAt o = now /\ Order.updatedAt o = now;
  placed_rows : Forall2 (row_of_line now (Order.id o)) lines rows;
  placed_db :
    db' = mkDB (users db) (products db) (<[Order.id o := o]> (orders db))
            (orderItems db ++ rows)
            (notifications db ++
             [Notification.mk (next_row (notifications db)) (JWTPayload.userId user)
                "Pedido confirmado"
                (NotificationCreate.message
                   (created_notification (JWTPayload.userId user) (Order.id o)))
                ORDER false (Some (Order.id o)) now]);
}.

(** The order's subtotal as a decimal amount, in cents: the sum over the
    lines of catalog price times quantity, when every line names a product
    and a whole quantity. *)
Definition decimal_subtotal (catalog : gmap Z Product.t)
    (items : list OrderItemInput.t) : option Z :=
  foldr
    (fun item acc =>
       p ← catalog !! OrderItemInput.productId item;
       q ← JS.to_Z (requested_quantity item);
       s ← acc;
       Some (Product.price p * q + s))
    (Some 0) items.

(** The legal transitions of spec §4.3. *)
Definition transition_table : list (OrderStatus * OrderStatus) :=
  [(PENDING, PREPARING); (PENDING, CANCELLED);
   (PREPARING, READY); (PREPARING, CANCELLED);
   (READY, DELIVERED); (READY, CANCELLED)].

(** The pair (current status, requested status) appears in the table. *)
Definition in_table (from : OrderStatus) (status : string) : Prop :=
  exists to, parse_status status = Some to /\ (from, to) ∈ transition_table.

(** The rows of the database after the status of [order] became [to] and
    the notification [n] was recorded. *)
Definition status_changed (db : DB) (orderId : Z) (order : Order.t) (to : OrderStatus)
    (now : Z) (n : Notification.t) : DB :=
  mkDB (users db) (products db)
    (<[orderId := with_status order to now]> (orders db))
    (orderItems db) (notifications db ++ [n]).



(** [o'] is [o] up to its status and its [updatedAt]. *)
Definition same_but_status (o o' : Order.t) : Prop :=
  Order.id o' = Order.id o
  /\ Order.userId o' = Order.userId o
  /\ Order.deliveryLocation o' = Order.deliveryLocation o
  /\ Order.paymentMethod o' = Order.paymentMethod o
  /\ Order.subtotal o' = Order.subtotal o
  /\ Order.deliveryFee o' = Order.deliveryFee o
  /\ Order.total o' = Order.total o
  /\ Order.notes o' = Order.notes o
  /\ Order.createdAt o' = Order.createdAt o.

(** The requests of the core that write to the store. *)
Inductive Request :=
| CreateOrder (user : JWTPayload.t) (body : CreateOrderInput.t)
| UpdateOrderStatus (id : option Z) (status : string)
| CancelOrder (user : JWTPayload.t) (id : option Z).

Definition handle (accepts : Write -> bool) (now : Z) (req : Request) (db : DB)
  : DB * Response :=
  match req with
  | CreateOrder user body => createOrder accepts now user body db
  | UpdateOrderStatus id status => updateOrderStatus accepts now id status db
  | CancelOrder user id => cancelOrder accepts now user id db
  end.


(** Every order is stored under its [id]. *)
Definition keyed (db : DB) : Prop :=
  forall k o, orders db !! k = Some o -> Order.id o = k.

(** The orders of a user, and the lines of those orders. *)
Definition own_orders (uid : Z) (db : DB) : gmap Z Order.t :=
  filter (fun kv => Order.userId kv.2 = uid) (orders db).

Definition own_lines (uid : Z) (db : DB) : list OrderItem.t :=
  List.filter
    (fun it =>
       match orders db !! OrderItem.orderId it with
       | Some o => bool_decide (Order.userId o = uid)
       | None => false
       end)
    (orderItems db).

(** Two databases that differ at most in what belongs to users other than
    [uid]. *)
Definition agree_for (uid : Z) (db1 db2 : DB) : Prop :=
  users db1 = users db2
  /\ products db1 = products db2
  /\ own_orders uid db1 = own_orders uid db2
  /\ own_lines uid db1 = own_lines uid db2.

(** ** Sample data: a small catalog and two clients *)

Module Sample.

Definition ana : JWTPayload.t := JWTPayload.mk 7 "ana@ucss.pe" "CLIENT".
Definition luis : JWTPayload.t := JWTPayload.mk 8 "luis@ucss.pe" "CLIENT".

Definition catalog : gmap Z Product.t :=
  list_to_map
    [(1, Product.mk 1 "Espresso" None 350 None true);
     (2, Product.mk 2 "Te" None 100 None true);
     (3, Product.mk 3 "Jugo" None 500 None false);
     (4, Product.mk 4 "Galleta" None 20 None true);
     (5, Product.mk 5 "Pan" None 60 None true);
     (6, Product.mk 6 "Caramelo" None 29 None true);
     (7, Product.mk 7 "Agua" None 113 None true)].

Definition db : DB :=
  mkDB (list_to_map [(7, User.mk 7 "ana@ucss.pe" "Ana" "Paz" None);
                     (8, User.mk 8 "luis@ucss.pe" "Luis" "Rey" None)])
    catalog ∅ [] [].

Definition line (productId : Z) (quantity : option Z) : OrderItemInput.t :=
  OrderItemInput.mk productId (JS.of_Z <$> quantity) None None.

Definition request (lines : list OrderItemInput.t) : CreateOrderInput.t :=
  CreateOrderInput.mk (Some lines) (Some "Aula 101") (Some "CASH") None.

(** A store that refuses every line of product 2. *)
Definition refuse_second_line : Write -> bool :=
  fun w =>
    match w with
    | W_orderItem_create _ item =>
        negb (bool_decide (ProcessedOrderItem.productId item = 2))
    | _ => true
    end.

(** The sample database after Ana placed two espressos (order 1). *)
Definition db1 : DB :=
  fst (createOrder always 1000 ana (request [line 1 (Some 2)]) db).

Definition order1 : Order.t :=
  Order.mk 1 7 PENDING "Aula 101" CASH (JS.of_Z 7) (JS.of_Z 1) (JS.of_Z 8) None
    1000 1000.

(** ... and after Luis placed five teas (order 2). *)
Definition db2 : DB :=
  fst (createOrder always 1001 luis (request [line 2 (Some 5)]) db1).

End Sample.


(** ** Runs of the core *)

(** The requests of a run are handled one after another, each at its
    time. *)
Definition run (accepts : Write -> bool) (reqs : list (Z * Request)) (db : DB) : DB :=
  fold_left (fun d r => fst (handle accepts r.1 r.2 d)) reqs db.

(** One transition of [validTransitions], on statuses. *)
Definition transition (from to : OrderStatus) : Prop :=
  (from, to) ∈ transition_table.

(** Every order line, and every notification about an order, refers to a
    stored order. *)
Definition references_resolve (db : DB) : Prop :=
  (forall it, it ∈ orderItems db -> is_Some (orders db !! OrderItem.orderId it))
  /\ (forall n oid,
        n ∈ notifications db -> Notification.orderId n = Some oid ->
        is_Some (orders db !! oid)).

(** Every notification about an order is addressed to the order's owner. *)
Definition addressed_to_owner (db : DB) : Prop :=
  forall n oid o,
    n ∈ notifications db -> Notification.orderId n = Some oid ->
    orders db !! oid = Some o ->
    Notification.userId n = Order.userId o.

(** ** Authentication (middleware/auth.ts) *)

(** [s.split(" ")]. *)
Fixpoint split_spaces (s : string) : list string :=
  match s with
  | EmptyString => [""]
  | String c rest =>
      if decide (String c "" = " ") then "" :: split_spaces rest
      else match split_spaces rest with
           | w :: ws => String c w :: ws
           | [] => [String c ""]
           end
  end.

(** [authHeader && authHeader.split(" ")[1]], with [None] for
    [undefined]. *)
Definition header_token (authorization : option string) : option string :=
  match authorization with
  | None => None
  | Some h => if decide (h = "") then Some "" else split_spaces h !! 1%nat
  end.

(** [!token]. *)
Definition no_token (token : option string) : bool :=
  match token with
  | None => true
  | Some t => bool_decide (t = "")
  end.

(** The columns of [User] the middleware selects. *)
Module Account.
Record t := mk {
  id : Z;
  email : string;
  role : string;
  isActive : bool;
  isVerified : bool;
  firstName : string;
  lastName : string;
}.
End Account.

(** [req.user]: the token's payload with two flags of the account. *)
Module ReqUser.
Record t := mk {
  payload : JWTPayload.t;
  isVerified : bool;
  isActive : bool;
}.
End ReqUser.

(** What [jwt.verify] throws, by the error's name. *)
Inductive VerifyError := TokenExpiredError | JsonWebTokenError | OtherError.

Inductive AuthFailure :=
| NO_TOKEN
| USER_NOT_FOUND
| USER_INACTIVE
| TOKEN_EXPIRED
| TOKEN_MALFORMED
| AUTH_ERROR
| AUTH_REQUIRED
| ADMIN_REQUIRED
| CLIENT_REQUIRED
| EMAIL_VERIFICATION_REQUIRED.

Definition auth_status (f : AuthFailure) : Z :=
  match f with
  | AUTH_ERROR => 500
  | ADMIN_REQUIRED | CLIENT_REQUIRED | EMAIL_VERIFICATION_REQUIRED => 403
  | _ => 401
  end.

Section Auth.

(** [AuthUtils.verifyAccessToken]: [jwt.verify] with the server's secret. *)
Variable verifyAccessToken : string -> VerifyError + JWTPayload.t.

(** The users table, as the middleware reads it. *)
Variable accounts : gmap Z Account.t.

Definition authenticateToken (authorization : option string) : AuthFailure + ReqUser.t :=
  let token := header_token authorization in
  if no_token token then inl NO_TOKEN
  else
    match verifyAccessToken (default "" token) with
    | inl TokenExpiredError => inl TOKEN_EXPIRED
    | inl JsonWebTokenError => inl TOKEN_MALFORMED
    | inl OtherError => inl AUTH_ERROR
    | inr payload =>
        match accounts !! JWTPayload.userId payload with
        | None => inl USER_NOT_FOUND
        | Some user =>
            if negb (Account.isActive user) then inl USER_INACTIVE
            else inr (ReqUser.mk payload (Account.isVerified user)
                        (Account.isActive user))
        end
    end.

(** [optionalAuth] never answers: it leaves [req.user] ([user]) as it
    finds it, sets it, or clears it, and calls [next()]. *)
Definition optionalAuth (authorization : option string) (user : option ReqUser.t)
  : option ReqUser.t :=
  let token := header_token authorization in
  if no_token token then None
  else
    match verifyAccessToken (default "" token) with
    | inl _ => None
    | inr payload =>
        match accounts !! JWTPayload.userId payload with
        | Some account =>
            if Account.isActive account
            then Some (ReqUser.mk payload (Account.isVerified account)
                         (Account.isActive account))
            else user
        | None => user
        end
    end.

End Auth.

(** [requireAdmin]: [None] stands for [next()]. *)
Definition requireAdmin (user : option ReqUser.t) : option AuthFailure :=
  match user with
  | None => Some AUTH_REQUIRED
  | Some u =>
      if bool_decide (JWTPayload.role (ReqUser.payload u) ≠ "ADMIN")
      then Some ADMIN_REQUIRED
      else None
  end.

Definition requireClient (user : option ReqUser.t) : option AuthFailure :=
  match user with
  | None => Some AUTH_REQUIRED
  | Some u =>
      if bool_decide (JWTPayload.role (ReqUser.payload u) ≠ "CLIENT")
      then Some CLIENT_REQUIRED
      else None
  end.

Definition requireVerifiedEmail (user : option ReqUser.t) : option AuthFailure :=
  match user with
  | None => Some AUTH_REQUIRED
  | Some u =>
      if negb (ReqUser.isVerified u) then Some EMAIL_VERIFICATION_REQUIRED else None
  end.

(** ** Listing orders (controllers/orderController.ts) *)

(** [Math.ceil]. *)
Definition Math_ceil (x : JS.number) : JS.number :=
  match Prim2SF x with
  | S754_finite s m e =>
      if 0 <=? e then x
      else
        let q := Z.pos m / 2 ^ (- e) in
        let r := Z.pos m mod 2 ^ (- e) in
        if s then (if q =? 0 then PrimFloat.opp (JS.of_Z 0) else JS.of_Z (- q))
        else JS.of_Z (if r =? 0 then q else q + 1)
  | _ => x
  end.

(** [req.query]; [page] and [limit] hold [Number] of the parameter, [None]
    when it is absent. *)
Module OrdersQuery.
Record t := mk {
  status : option string;
  date : option string;
  page : option JS.number;
  limit : option JS.number;
}.
End OrdersQuery.

(** The [where] clause of [findMany] and [count]. *)
Module OrderFilter.
Record t := mk {
  userId : option Z;
  status : option string;
  createdAt : option (Z * Z);    (* gte, lt *)
}.
End OrderFilter.

Module Pagination.
Record t := mk {
  page : JS.number;
  limit : JS.number;
  total : JS.number;
  pages : JS.number;
}.
End Pagination.

Module ProductBrief.
Record t := mk { id : Z; name : string; imageUrl : option string }.
End ProductBrief.

Module AdminOrderView.
Record line := mkLine {
  item : OrderItem.t;
  product : option ProductBrief.t;
}.
Record t := mk {
  order : Order.t;
  orderItems : list line;
  user : option User.t;
}.
End AdminOrderView.

Inductive ListFailure := USER_ORDERS_FETCH_ERROR | ALL_ORDERS_FETCH_ERROR.

Inductive Listing (A : Type) :=
| Listed (data : list A) (pagination : Pagination.t)     (* 200 *)
| ListFailed (code : ListFailure).                        (* 500 *)

Arguments Listed {A} data pagination.
Arguments ListFailed {A} code.

(** [s] when it is truthy. *)
Definition truthy_string (s : option string) : option string :=
  match s with
  | Some v => if decide (v = "") then None else Some v
  | None => None
  end.

Definition order_matches (w : OrderFilter.t) (st : option OrderStatus) (o : Order.t)
  : bool :=
  match OrderFilter.userId w with
  | Some u => bool_decide (Order.userId o = u)
  | None => true
  end
  && match st with
     | Some s => bool_decide (Order.status o = s)
     | None => true
     end
  && match OrderFilter.createdAt w with
     | Some (gte, lt) => (gte <=? Order.createdAt o) && (Order.createdAt o <? lt)
     | None => true
     end.

(** The rows a [where] clause selects; the query is refused when the status
    is not one of the enum's. *)
Definition order_where (w : OrderFilter.t) (db : DB) : option (list Order.t) :=
  let rows := (map_to_list (orders db)).*2 in
  match OrderFilter.status w with
  | Some s =>
      match parse_status s with
      | Some st => Some (List.filter (order_matches w (Some st)) rows)
      | None => None
      end
  | None => Some (List.filter (order_matches w None) rows)
  end.

(** [prisma.order.count({where})]. *)
Definition order_count (w : OrderFilter.t) (db : DB) : option JS.number :=
  (fun rows => JS.of_Z (Z.of_nat (length rows))) <$> order_where w db.

(** [skip] and [take] of a list in the store's order: a negative [take]
    counts from the end. *)
Definition window {A} (s t : Z) (l : list A) : list A :=
  if 0 <=? t then take (Z.to_nat t) (drop (Z.to_nat s) l)
  else rev (take (Z.to_nat (- t)) (drop (Z.to_nat s) (rev l))).

Definition lines_of (db : DB) (o : Order.t) : list OrderItem.t :=
  List.filter (fun it => bool_decide (OrderItem.orderId it = Order.id o)) (orderItems db).

(** The [include] of [getUserOrders]: the lines with a summary of their
    product, and no user. *)
Definition include_lines (db : DB) (o : Order.t) : OrderView.t :=
  OrderView.mk o
    (List.map
       (fun it => OrderView.mkLine it
                    (product_summary false <$> products db !! OrderItem.productId it))
       (lines_of db o))
    None.

(** The [include] of [getAllOrders]. *)
Definition include_admin (db : DB) (o : Order.t) : AdminOrderView.t :=
  AdminOrderView.mk o
    (List.map
       (fun it =>
          AdminOrderView.mkLine it
            ((fun p => ProductBrief.mk (Product.id p) (Product.name p) (Product.imageUrl p))
               <$> products db !! OrderItem.productId it))
       (lines_of db o))
    (users db !! Order.userId o).

Section Listings.

(** The order in which the store answers [orderBy: {createdAt: "desc"}];
    rows created at the same time come in an order of its choosing. *)
Variable newest_first : list Order.t -> list Order.t.

(** [new Date(s)] as milliseconds, [None] for an invalid date, and
    [d.setDate(d.getDate() + 1)] in the server's time zone. *)
Variable parse_Date : string -> option Z.
Variable next_day : Z -> Z.

(** [prisma.order.findMany({where, orderBy: {createdAt: "desc"}, skip,
    take})]: [skip] and [take] are [Int]s, [skip] is not negative. *)
Definition order_findMany (w : OrderFilter.t) (skip take : JS.number) (db : DB)
  : option (list Order.t) :=
  rows ← order_where w db;
  s ← JS.to_Z skip;
  t ← JS.to_Z take;
  if is_Int skip && is_Int take && (0 <=? s)
  then Some (window s t (newest_first rows))
  else None.

Definition pagination_of (page limit total : JS.number) : Pagination.t :=
  Pagination.mk page limit total (Math_ceil (PrimFloat.div total limit)).

(** GET /api/orders/my-orders, for the authenticated [user]. *)
Definition getUserOrders (user : JWTPayload.t) (q : OrdersQuery.t) (db : DB)
  : Listing OrderView.t :=
  let userId := JWTPayload.userId user in
  let page := default (JS.of_Z 1) (OrdersQuery.page q) in
  let limit := default (JS.of_Z 10) (OrdersQuery.limit q) in
  let skip := PrimFloat.mul (PrimFloat.sub page (JS.of_Z 1)) limit in
  let whereClause :=
    OrderFilter.mk (Some userId) (truthy_string (OrdersQuery.status q)) None in
  match order_findMany whereClause skip limit db, order_count whereClause db with
  | Some orders, Some total =>
      Listed (include_lines db <$> orders) (pagination_of page limit total)
  | _, _ => ListFailed USER_ORDERS_FETCH_ERROR
  end.

(** GET /api/orders/admin/all (behind [requireAdmin]). *)
Definition getAllOrders (q : OrdersQuery.t) (db : DB) : Listing AdminOrderView.t :=
  let page := default (JS.of_Z 1) (OrdersQuery.page q) in
  let limit := default (JS.of_Z 20) (OrdersQuery.limit q) in
  let skip := PrimFloat.mul (PrimFloat.sub page (JS.of_Z 1)) limit in
  let status := truthy_string (OrdersQuery.status q) in
  let answer (whereClause : OrderFilter.t) : Listing AdminOrderView.t :=
    match order_findMany whereClause skip limit db, order_count whereClause db with
    | Some orders, Some total =>
        Listed (include_admin db <$> orders) (pagination_of page limit total)
    | _, _ => ListFailed ALL_ORDERS_FETCH_ERROR
    end in
  match truthy_string (OrdersQuery.date q) with
  | None => answer (OrderFilter.mk None status None)
  | Some date =>
      match parse_Date date with
      | None => ListFailed ALL_ORDERS_FETCH_ERROR
      | Some startDate =>
          let endDate := next_day startDate in
          answer (OrderFilter.mk None status (Some (startDate, endDate)))
      end
  end.

End Listings.

(** [a] was not created before [b]. *)
Definition not_older (a b : Order.t) : Prop :=
  Order.createdAt b <= Order.createdAt a.

Global Instance not_older_dec : RelDecision not_older.
Proof. intros a b. unfold not_older. apply _. Defined.

(** One way for the store to answer [orderBy: {createdAt: "desc"}]: a
    merge sort. *)
Definition newest_first_sort : list Order.t -> list Order.t :=
  merge_sort not_older.

(** The orders a listing is about: those of the user, in the status and
    created in the period asked for, where one is given. *)
Definition listed_order (uid : option Z) (status : option string)
    (period : option (Z * Z)) (o : Order.t) : Prop :=
  match uid with Some u => Order.userId o = u | None => True end
  /\ match status with Some s => status_name (Order.status o) = s | None => True end
  /\ match period with
     | Some (gte, lt) => gte <= Order.createdAt o < lt
     | None => True
     end.

Global Instance listed_order_dec uid status period o :
  Decision (listed_order uid status period o).
Proof. unfold listed_order. destruct uid, status, period as [[]|]; apply _. Defined.

(** How many stored orders a listing is about. *)
Definition listed_count (uid : option Z) (status : option string)
    (period : option (Z * Z)) (db : DB) : nat :=
  size (filter (fun kv => listed_order uid status period kv.2) (orders db)).


(** ** The order routes (routes/orderRoutes.ts) *)

Inductive Method := GET | POST | PATCH.

Inductive Middleware := MW_authenticateToken | MW_requireAdmin.

Inductive Handler :=
| H_getUserOrders
| H_getAllOrders
| H_updateOrderStatus
| H_createOrder
| H_getOrderById
| H_cancelOrder.

Module Route.
Record t := mk {
  method : Method;
  path : string;
  middlewares : list Middleware;
  handler : Handler;
}.
End Route.

(** The router's table, in the order of registration. *)
Definition orderRoutes : list Route.t :=
  [ Route.mk GET "/my-orders" [MW_authenticateToken] H_getUserOrders;
    Route.mk GET "/admin/all" [MW_authenticateToken; MW_requireAdmin] H_getAllOrders;
    Route.mk PATCH "/admin/:id/status" [MW_authenticateToken; MW_requireAdmin]
      H_updateOrderStatus;
    Route.mk POST "/" [MW_authenticateToken] H_createOrder;
    Route.mk GET "/:id" [MW_authenticateToken] H_getOrderById;
    Route.mk PATCH "/:id/cancel" [MW_authenticateToken] H_cancelOrder ].

(** What a handler reads of the request: the Authorization header,
    [parseInt(req.params.id)] ([None] for [NaN]), the body of a POST, the
    [status] of a PATCH body and the query. *)
Module Req.
Record t := mk {
  authorization : option string;
  id : option Z;
  body : CreateOrderInput.t;
  status : string;
  query : OrdersQuery.t;
}.
End Req.

Inductive Answer :=
| Unauthorized (f : AuthFailure)                   (* a middleware answered *)
| Answered (r : Response)
| OwnOrders (l : Listing OrderView.t)
| AllOrders (l : Listing AdminOrderView.t)
| HandlerError (h : Handler).                      (* 500, from the handler's catch *)

Section Router.

Variable accepts : Write -> bool.
Variable verifyAccessToken : string -> VerifyError + JWTPayload.t.
Variable accounts : gmap Z Account.t.
Variable newest_first : list Order.t -> list Order.t.
Variable parse_Date : string -> option Z.
Variable next_day : Z -> Z.

(** The middlewares of a route, one after another; [user] is [req.user]. *)
Fixpoint run_middlewares (mws : list Middleware) (req : Req.t)
    (user : option ReqUser.t) : AuthFailure + option ReqUser.t :=
  match mws with
  | [] => inr user
  | MW_authenticateToken :: rest =>
      match authenticateToken verifyAccessToken accounts (Req.authorization req) with
      | inl f => inl f
      | inr u => run_middlewares rest req (Some u)
      end
  | MW_requireAdmin :: rest =>
      match requireAdmin user with
      | Some f => inl f
      | None => run_middlewares rest req user
      end
  end.

(** A handler at time [now].  Reading [req.user!.userId] of an absent user
    throws inside the handler's [try]. *)
Definition run_handler (h : Handler) (now : Z) (req : Req.t)
    (user : option ReqUser.t) (db : DB) : DB * Answer :=
  match h, user with
  | H_getAllOrders, _ =>
      (db, AllOrders (getAllOrders newest_first parse_Date next_day (Req.query req) db))
  | H_updateOrderStatus, _ =>
      let (db', r) := updateOrderStatus accepts now (Req.id req) (Req.status req) db in
      (db', Answered r)
  | _, None => (db, HandlerError h)
  | H_getUserOrders, Some u =>
      (db, OwnOrders (getUserOrders newest_first (ReqUser.payload u) (Req.query req) db))
  | H_createOrder, Some u =>
      let (db', r) := createOrder accepts now (ReqUser.payload u) (Req.body req) db in
      (db', Answered r)
  | H_getOrderById, Some u =>
      (db, Answered (getOrderById (ReqUser.payload u) (Req.id req) db))
  | H_cancelOrder, Some u =>
      let (db', r) := cancelOrder accepts now (ReqUser.payload u) (Req.id req) db in
      (db', Answered r)
  end.

(** A request that the router matched with [route]. *)
Definition serve (route : Route.t) (now : Z) (req : Req.t) (db : DB) : DB * Answer :=
  match run_middlewares (Route.middlewares route) req None with
  | inl f => (db, Unauthorized f)
  | inr user => run_handler (Route.handler route) now req user db
  end.

End Router.

(** No space in [s]. *)
Fixpoint spaceless (s : string) : Prop :=
  match s with
  | EmptyString => True
  | String c rest => String c "" <> " " /\ spaceless rest
  end.

Global Instance Middleware_eq_dec : EqDecision Middleware.
Proof. solve_decision. Defined.

Global Instance Handler_eq_dec : EqDecision Handler.
Proof. solve_decision. Defined.

(** The routes behind [requireAdmin]. *)
Definition admin_only (route : Route.t) : Prop :=
  MW_requireAdmin ∈ Route.middlewares route.

Global Instance admin_only_dec route : Decision (admin_only route).
Proof. unfold admin_only. apply _. Defined.


(** ** More sample data *)

Module Scenario.

(** Order 1 of the sample database, cancelled by its owner. *)
Definition cancelled : DB :=
  fst (cancelOrder always 1002 Sample.ana (Some 1) Sample.db1).

Definition admin : JWTPayload.t := JWTPayload.mk 1 "admin@ucss.pe" "ADMIN".

(** A run: Luis orders five teas, the administrator starts preparing
    order 1, and Ana tries to cancel it. *)
Definition busy_day : list (Z * Request) :=
  [(1001, CreateOrder Sample.luis (Sample.request [Sample.line 2 (Some 5)]));
   (1002, UpdateOrderStatus (Some 1) "PREPARING");
   (1003, CancelOrder Sample.ana (Some 1))].

(** The tokens the sample server has signed, and a few it refuses. *)
Definition verify (token : string) : VerifyError + JWTPayload.t :=
  if decide (token = "ana-token") then inr Sample.ana
  else if decide (token = "luis-token") then inr Sample.luis
  else if decide (token = "admin-token") then inr admin
  else if decide (token = "old-token") then inl TokenExpiredError
  else inl JsonWebTokenError.

Definition accounts : gmap Z Account.t :=
  list_to_map
    [(1, Account.mk 1 "admin@ucss.pe" "ADMIN" true true "Ada" "Min");
     (7, Account.mk 7 "ana@ucss.pe" "CLIENT" true true "Ana" "Paz");
     (8, Account.mk 8 "luis@ucss.pe" "CLIENT" true false "Luis" "Rey")].

(** The same accounts after every role was set to CLIENT. *)
Definition demoted : gmap Z Account.t :=
  (fun a => Account.mk (Account.id a) (Account.email a) "CLIENT" (Account.isActive a)
              (Account.isVerified a) (Account.firstName a) (Account.lastName a))
  <$> accounts.

(** A query without parameters, and one for the pending orders. *)
Definition no_query : OrdersQuery.t := OrdersQuery.mk None None None None.

Definition pending_query : OrdersQuery.t :=
  OrdersQuery.mk (Some "PENDING") None None None.

(** Dates as the sample server reads them: one known day, in milliseconds. *)
Definition parse_Date (s : string) : option Z :=
  if decide (s = "1970-01-01") then Some 0 else None.

Definition next_day (d : Z) : Z := d + 86400000.

Definition day_query : OrdersQuery.t :=
  OrdersQuery.mk None (Some "1970-01-01") None None.

(** A request with a header and an order id; the rest is empty. *)
Definition request (authorization : option string) (id : option Z) : Req.t :=
  Req.mk authorization id (Sample.request []) "PREPARING" no_query.

Definition cancel_route : Route.t :=
  Route.mk PATCH "/:id/cancel" [MW_authenticateToken] H_cancelOrder.

Definition status_route : Route.t :=
  Route.mk PATCH "/admin/:id/status" [MW_authenticateToken; MW_requireAdmin]
    H_updateOrderStatus.

End Scenario.

(** ** Facts about the store *)

Lemma next_key_above {A} (m : gmap Z A) (k : Z) :
  is_Some (m !! k) -> k < next_key m.
Proof.
  unfold next_key. revert k.
  apply (map_fold_weak_ind (fun r m => forall k, is_Some (m !! k) -> k < 1 + r)).
  - intros k [x Hx]. by rewrite lookup_empty in Hx.
  - intros i x m' r _ IH k Hk.
    destruct (decide (i = k)) as [->|Hne]; [lia|].
    rewrite lookup_insert_ne in Hk by done.
    specialize (IH _ Hk). lia.
Qed.

Lemma next_key_fresh {A} (m : gmap Z A) : m !! next_key m = None.
Proof.
  destruct (m !! next_key m) as [x|] eqn:E; [|done].
  assert (next_key m < next_key m) by (apply next_key_above; eauto). lia.
Qed.

Section StoreFacts.

Variable accepts : Write -> bool.

Lemma tx_for_orderItems now oid lines db db' r :
  tx_for lines (orderItem_create accepts now oid) db = (db', r) ->
  users db' = users db /\ products db' = products db
  /\ orders db' = orders db /\ notifications db' = notifications db
  /\ (r = Some tt ->
      exists rows, orderItems db' = orderItems db ++ rows
                   /\ Forall2 (row_of_line now oid) lines rows).
Proof.
  revert db. induction lines as [|line lines IH]; intros db H; simpl in H.
  - unfold tx_ret in H. simplify_eq. repeat split; try done.
    intros _. exists []. by rewrite app_nil_r.
  - unfold tx_bind in H.
    destruct (orderItem_create accepts now oid line db) as [db1 [[]|]] eqn:E1;
      unfold orderItem_create in E1.
    + destruct (is_Int (ProcessedOrderItem.quantity line)) eqn:Hint; simpl in E1;
        [|done].
      destruct (accepts _); [|done]. simplify_eq.
      apply IH in H as (Hu & Hp & Ho & Hn & Hr). simpl in *.
      repeat split; try done.
      intros ->. destruct (Hr eq_refl) as (rows & Hrows & Hall).
      eexists (_ :: rows). rewrite Hrows, <- app_assoc. split; [done|].
      constructor; [|done]. by repeat split.
    + destruct (_ && _); simplify_eq. repeat split; try done.
Qed.


End StoreFacts.

Section TransactionFacts.

Variable accepts : Write -> bool.

(** The transaction of [createOrder] either leaves the database as it
    was, or adds the order, a row per line and the notification. *)
Lemma createOrder_tx_cases now uid data lines db db' r :
  transaction (createOrder_tx accepts now uid data lines) db = (db', r) ->
  match r with
  | None => db' = db
  | Some o =>
      exists loc pm st rows,
        OrderCreate.deliveryLocation data = Some loc
        /\ OrderCreate.paymentMethod data ≫= parse_payment = Some pm
        /\ parse_status (OrderCreate.status data) = Some st
        /\ o = created_order now data db loc pm st
        /\ Forall2 (row_of_line now (Order.id o)) lines rows
        /\ db' = mkDB (users db) (products db) (<[Order.id o := o]> (orders db))
                   (orderItems db ++ rows)
                   (notifications db ++
                    [Notification.mk (next_row (notifications db)) uid
                       "Pedido confirmado"
                       (NotificationCreate.message
                          (created_notification uid (Order.id o)))
                       ORDER false (Some (Order.id o)) now])
  end.
Proof.
  unfold transaction, createOrder_tx, tx_bind.
  destruct (order_create accepts now data db) as [db1 [o|]] eqn:E1;
    [|intros; by simplify_eq].
  unfold order_create in E1.
  destruct (OrderCreate.deliveryLocation data) as [loc|] eqn:Eloc; [|done].
  destruct (OrderCreate.paymentMethod data ≫= parse_payment) as [pm|] eqn:Epm; [|done].
  destruct (parse_status (OrderCreate.status data)) as [st|] eqn:Est; [|done].
  destruct (accepts (W_order_create data)); [|done].
  injection E1 as <- <-.
  destruct (tx_for lines _ _) as [db2 [[]|]] eqn:E2; [|intros; by simplify_eq].
  apply tx_for_orderItems in E2 as (Hu & Hp & Ho & Hn & Hr).
  destruct (Hr eq_refl) as (rows & Hrows & Hall). simpl in *.
  unfold notification_create, tx_ret.
  destruct (accepts (W_notification_create _)); [|intros; by simplify_eq].
  intros ?; simplify_eq. exists loc, pm, st, rows.
  repeat split; try done.
  unfold add_notification. destruct db2; simpl in *. by subst.
Qed.


End TransactionFacts.

(** ** The pricing loop *)

Section Pricing.

Variable catalog : gmap Z Product.t.

Lemma process_items_inr items : forall subtotal acc s' acc',
  process_items catalog items subtotal acc = inr (s', acc') ->
  exists lines,
    acc' = acc ++ lines
    /\ Forall2 (priced_from catalog) items lines
    /\ s' = fold_left (fun a item => PrimFloat.add a (line_subtotal catalog item))
              items subtotal
    /\ s' = fold_left (fun a l => PrimFloat.add a (ProcessedOrderItem.subtotal l))
              lines subtotal.
Proof.
  induction items as [|item items IH]; intros subtotal acc s' acc' H; simpl in H.
  - simplify_eq. exists []. rewrite app_nil_r. repeat split; constructor.
  - destruct (catalog !! OrderItemInput.productId item) as [p|] eqn:Ep; [|done].
    destruct (Product.isAvailable p) eqn:Eav; simpl in H; [|done].
    apply IH in H as (lines & -> & Hall & Hs1 & Hs2).
    eexists (_ :: lines). rewrite <- app_assoc. split; [done|].
    split; [|split].
    + constructor; [|done]. exists p. by repeat split.
    + simpl. unfold line_subtotal at 2. by rewrite Ep.
    + done.
Qed.




End Pricing.

(** ** Order creation *)

Section CreateOrder.

Variable accepts : Write -> bool.

Lemma created_order_found db o rows ns :
  order_findUnique (OrderWhere.mk (Order.id o) None)
    (mkDB (users db) (products db) (<[Order.id o := o]> (orders db)) rows ns)
  = Some o.
Proof. unfold order_findUnique. simpl. by rewrite lookup_insert_eq. Qed.

(** Every run of [createOrder] either fails and leaves the database as it
    was, or places the order. *)
Lemma createOrder_cases now user body db db' r :
  createOrder accepts now user body db = (db', r) ->
  (exists f, r = Failed f /\ db' = db)
  \/ (exists o lines rows,
        placed now user body db o lines rows db'
        /\ r = Created (Some (include_relations false db' o))).
Proof.
  unfold createOrder. simpl.
  destruct (CreateOrderInput.items body) as [[|item items]|] eqn:Eitems;
    [intros; simplify_eq; left; eauto| |intros; simplify_eq; left; eauto].
  destruct (process_items _ _ _ _) as [f|[subtotal lines]] eqn:Eproc;
    [intros; simplify_eq; left; eauto|].
  destruct (PrimFloat.ltb subtotal (JS.of_Z 2)) eqn:Emin;
    [intros; simplify_eq; left; eauto|].
  destruct (transaction _ db) as [db1 [o|]] eqn:Etx.
  - apply createOrder_tx_cases in Etx as (loc & pm & st & rows & Hloc & Hpm & Hst & Ho & Hrows & Hdb).
    simpl in Hloc, Hpm, Hst. injection Hst as <-.
    intros ?; simplify_eq. right. exists (created_order now
      (OrderCreate.mk (JWTPayload.userId user) (CreateOrderInput.deliveryLocation body)
         (CreateOrderInput.paymentMethod body) subtotal (JS.of_Z 1)
         (PrimFloat.add subtotal (JS.of_Z 1)) (CreateOrderInput.notes body) "PENDING")
      db loc pm PENDING), lines, rows.
    split.
    + constructor; simpl; try done.
      * eauto.
      * apply next_key_fresh.
    + by rewrite created_order_found.
  - apply createOrder_tx_cases in Etx. intros ?; simplify_eq. left; eauto.
Qed.

End CreateOrder.

(** Spec §8: two units of a product at 3.50 give subtotal 7.00, delivery fee
    1.00, total 8.00 and status PENDING. *)
Example scenario_two_espressos :
  (fun o => (Order.subtotal o, Order.deliveryFee o, Order.total o, Order.status o))
    <$> orders (fst (createOrder always 1000 Sample.ana
                       (Sample.request [Sample.line 1 (Some 2)]) Sample.db)) !! 1
  = Some (JS.of_Z 7, JS.of_Z 1, JS.of_Z 8, PENDING).
Proof. vm_compute. reflexivity. Qed.

(** Spec §8: one unit of a product at 1.00 does not reach the minimum. *)
Example scenario_below_minimum :
  createOrder always 1000 Sample.ana (Sample.request [Sample.line 2 (Some 1)]) Sample.db
  = (Sample.db, Failed MINIMUM_ORDER_NOT_MET).
Proof. vm_compute. reflexivity. Qed.

(** Inside the transaction the order row and the first line are written
    before the second line is refused; [transaction] discards them. *)
Example refused_line_partial_writes :
  let cb := createOrder_tx Sample.refuse_second_line 1000 7
              (OrderCreate.mk 7 (Some "Aula 101") (Some "CASH") (JS.of_Z 8) (JS.of_Z 1)
                 (JS.of_Z 9) None "PENDING")
              [ProcessedOrderItem.mk 1 (JS.of_Z 2) (JS.Number_of_cents 350) None None
                 (JS.of_Z 7);
               ProcessedOrderItem.mk 2 (JS.of_Z 1) (JS.Number_of_cents 100) None None
                 (JS.of_Z 1)] in
  snd (cb Sample.db) = None
  /\ size (orders (fst (cb Sample.db))) = 1%nat
  /\ length (orderItems (fst (cb Sample.db))) = 1%nat
  /\ transaction cb Sample.db = (Sample.db, None).
Proof. vm_compute. repeat split; reflexivity. Qed.

Example refused_line_rolls_back :
  createOrder Sample.refuse_second_line 1000 Sample.ana
    (Sample.request [Sample.line 1 (Some 2); Sample.line 2 (Some 1)]) Sample.db
  = (Sample.db, Failed ORDER_CREATE_ERROR).
Proof. vm_compute. reflexivity. Qed.





(** C2: an order worth exactly the minimum is refused.  One unit at 0.20
    and three units at 0.60 are existing, available products whose subtotal
    is exactly 2.00, yet the controller accumulates 1.9999999999999998 and
    answers MINIMUM_ORDER_NOT_MET, leaving the database as it was. *)
Theorem createOrder_exact_minimum_rejected :
  let items := [Sample.line 4 (Some 1); Sample.line 5 (Some 3)] in
  Forall (orderable (products Sample.db)) items
  /\ decimal_subtotal (products Sample.db) items = Some 200
  /\ createOrder always 1000 Sample.ana (Sample.request items) Sample.db
     = (Sample.db, Failed MINIMUM_ORDER_NOT_MET).
Proof.
  split; [|split].
  - repeat constructor; eexists; split; vm_compute; reflexivity.
  - vm_compute. reflexivity.
  - vm_compute. reflexivity.
Qed.

(** ** Quantities *)





(** ** Rejected requests *)



(** ** Where the code and the specification part *)


(** No request is ever answered with a validation error: the route runs no
    validation chain. *)
Lemma createOrder_never_invalid_input (accepts : Write -> bool) (now : Z)
    (user : JWTPayload.t) (body : CreateOrderInput.t) (db : DB) (details : list string) :
  snd (createOrder accepts now user body db) <> Failed (INVALID_INPUT details).
Proof.
  assert (H : forall its s acc, process_items (products db) its s acc
                                <> inl (INVALID_INPUT details)).
  { induction its as [|it its IH]; intros s acc; simpl; [done|].
    destruct (products db !! _) as [p|]; [|done].
    destruct (Product.isAvailable p); simpl; [apply IH|done]. }
  unfold createOrder. cbn [validationResult post_orders_chain flat_map].
  destruct (CreateOrderInput.items body) as [[|item items]|]; try done.
  destruct (process_items _ _ _ _) as [f|[s l]] eqn:E.
  - cbn [snd]. intros [= ->]. by apply H in E.
  - destruct (PrimFloat.ltb s (JS.of_Z 2)); [done|].
    by destruct (transaction _ db) as [db1 [o|]].
Qed.

(** C7: the request shape is not validated before pricing.  A request with
    no delivery location and a payment method outside the enum is priced:
    with an unknown product it is answered PRODUCT_NOT_FOUND; with a valid
    line it reaches the store, which refuses the order row, and is answered
    ORDER_CREATE_ERROR, a 500, rather than a validation error. *)
Theorem createOrder_shape_not_validated :
  let shapeless lines := CreateOrderInput.mk (Some lines) None (Some "BITCOIN") None in
  validationResult post_orders_chain (shapeless [Sample.line 99 (Some 1)]) = []
  /\ createOrder always 1000 Sample.ana (shapeless [Sample.line 99 (Some 1)]) Sample.db
     = (Sample.db, Failed (PRODUCT_NOT_FOUND 99))
  /\ createOrder always 1000 Sample.ana (shapeless [Sample.line 1 (Some 2)]) Sample.db
     = (Sample.db, Failed ORDER_CREATE_ERROR)
  /\ http_status ORDER_CREATE_ERROR = 500.
Proof. repeat split; vm_compute; reflexivity. Qed.

(** ** The order state machine *)

Lemma parse_status_name (s : string) (st : OrderStatus) :
  parse_status s = Some st <-> status_name st = s.
Proof.
  split.
  - unfold parse_status, all_statuses. simpl.
    repeat case_bool_decide; intros; by simplify_eq.
  - intros <-. by destruct st.
Qed.

Lemma validTransitions_table (from : OrderStatus) (status : string) :
  exists allowed,
    validTransitions !! status_name from = Some allowed
    /\ (status ∈ allowed <-> in_table from status).
Proof.
  unfold in_table.
  destruct from; eexists; (split; [vm_compute; reflexivity|]); split.
  all: try (intros Hin; set_unfold in Hin; destruct_or?; subst;
            eexists; (split; [reflexivity|]); set_unfold; naive_solver).
  all: intros (to & Hto%parse_status_name & Hin); subst;
    set_unfold in Hin; destruct_or?; simplify_eq; set_unfold; naive_solver.
Qed.

Section StatusChanges.

Variable accepts : Write -> bool.

Lemma status_transaction now orderId status (data : NotificationCreate.t) db order to :
  orders db !! orderId = Some order ->
  parse_status status = Some to ->
  transaction
    (let* updated := order_update accepts now orderId status in
     let* _ := notification_create accepts now data in
     tx_ret updated) db
  = if accepts (W_order_update orderId status)
       && accepts (W_notification_create data)
    then (status_changed db orderId order to now
            (Notification.mk (next_row (notifications db))
               (NotificationCreate.userId data) (NotificationCreate.title data)
               (NotificationCreate.message data) (NotificationCreate.type data)
               false (Some (NotificationCreate.orderId data)) now),
          Some (with_status order to now))
    else (db, None).
Proof.
  intros Ho Hto.
  unfold transaction, tx_bind, order_update, notification_create, tx_ret.
  rewrite Ho, Hto.
  destruct (accepts (W_order_update orderId status)); [|done]. simpl.
  by destruct (accepts (W_notification_create data)).
Qed.

End StatusChanges.

(** C1. For an existing order: a requested status whose pair with the
    current status is not in the transition table is answered
    INVALID_STATUS_TRANSITION and nothing is changed; a success implies the
    pair is in the table; and when the store carries out the two writes, a
    pair in the table succeeds, sets the order's status (and [updatedAt]) and
    appends exactly one notification, for the order's owner, referencing
    the order, whose message is the one [statusMessages] keeps for the
    destination status. *)
Theorem updateOrderStatus_transitions (accepts : Write -> bool) (now orderId : Z)
    (status : string) (db : DB) (order : Order.t) :
  orders db !! orderId = Some order ->
  let db' := fst (updateOrderStatus accepts now (Some orderId) status db) in
  let r := snd (updateOrderStatus accepts now (Some orderId) status db) in
  (~ in_table (Order.status order) status ->
   r = Failed (INVALID_STATUS_TRANSITION (Order.status order) status) /\ db' = db)
  /\ (is_success r = true -> in_table (Order.status order) status)
  /\ (accepts (W_order_update orderId status) = true ->
      accepts (W_notification_create
                 (status_notification (Order.userId order) orderId status)) = true ->
      forall to,
        parse_status status = Some to ->
        (Order.status order, to) ∈ transition_table ->
        exists msg,
          statusMessages !! status_name to = Some msg
          /\ r = Updated (with_status order to now)
          /\ db' = status_changed db orderId order to now
                     (Notification.mk (next_row (notifications db)) (Order.userId order)
                        "Estado del pedido actualizado"
                        ("Pedido #" +:+ pretty orderId +:+ ": " +:+ msg)
                        ORDER false (Some orderId) now)).
Proof.
  intros Ho db' r. subst db' r.
  unfold updateOrderStatus, order_findUnique.
  cbn [validationResult patch_status_chain flat_map OrderWhere.id OrderWhere.userId].
  rewrite Ho.
  destruct (validTransitions_table (Order.status order) status) as (allowed & -> & Hiff).
  case_bool_decide as Hin; cbn [negb].
  - apply Hiff in Hin as Htab. destruct Htab as (to & Hto & Htab).
    rewrite (status_transaction accepts now orderId status _ db order to Ho Hto).
    split; [intros Hn; exfalso; apply Hn; by exists to|].
    split; [intros _; by exists to|].
    intros Hacc1 Hacc2 to' Hto' Htab'. rewrite Hto in Hto'. injection Hto' as <-.
    rewrite Hacc1, Hacc2. cbn [andb fst snd].
    apply parse_status_name in Hto. subst status.
    assert (Hmsg : exists msg, statusMessages !! status_name to = Some msg).
    { clear -Htab. set_unfold in Htab. destruct_or?; simplify_eq;
        eexists; vm_compute; reflexivity. }
    destruct Hmsg as [msg Hmsg]. exists msg. split; [done|]. split; [done|].
    unfold status_notification. by rewrite Hmsg.
  - split; [done|]. split; [done|].
    intros _ _ to Hto Htab. exfalso. apply Hin, Hiff. by exists to.
Qed.

Example sample_order1 : orders Sample.db1 !! 1 = Some Sample.order1.
Proof. vm_compute. reflexivity. Qed.

(** Spec §8: PENDING to DELIVERED directly is refused. *)
Example scenario_pending_to_delivered :
  updateOrderStatus always 1001 (Some 1) "DELIVERED" Sample.db1
  = (Sample.db1, Failed (INVALID_STATUS_TRANSITION PENDING "DELIVERED")).
Proof. vm_compute. reflexivity. Qed.

(** Spec §8: READY to DELIVERED succeeds and the owner is notified. *)
Example scenario_ready_to_delivered :
  let ready :=
    fst (updateOrderStatus always 1002 (Some 1) "READY"
           (fst (updateOrderStatus always 1001 (Some 1) "PREPARING" Sample.db1))) in
  let delivered := updateOrderStatus always 1003 (Some 1) "DELIVERED" ready in
  is_success (snd delivered) = true
  /\ (fun n => (Notification.userId n, Notification.orderId n, Notification.message n))
       <$> last (notifications (fst delivered))
     = Some (7, Some 1, "Pedido #1: Tu pedido ha sido entregado").
Proof. vm_compute. split; reflexivity. Qed.

Lemma updateOrderStatus_transitions_witness :
  snd (updateOrderStatus always 1001 (Some 1) "PREPARING" Sample.db1)
  = Updated (with_status Sample.order1 PREPARING 1001)
  /\ snd (updateOrderStatus always 1001 (Some 1) "READY" Sample.db1)
     = Failed (INVALID_STATUS_TRANSITION PENDING "READY").
Proof.
  destruct (updateOrderStatus_transitions always 1001 1 "PREPARING" Sample.db1
              Sample.order1 sample_order1) as (_ & _ & Hok).
  destruct (Hok eq_refl eq_refl PREPARING eq_refl) as (msg & _ & Hr & _).
  { unfold transition_table. rewrite !elem_of_cons. left. reflexivity. }
  split; [exact Hr|].
  destruct (updateOrderStatus_transitions always 1001 1 "READY" Sample.db1
              Sample.order1 sample_order1) as (Hbad & _).
  apply Hbad. intros (to & Hto & Hin).
  vm_compute in Hto. injection Hto as <-.
  change (Order.status Sample.order1) with PENDING in Hin.
  revert Hin. unfold transition_table.
  rewrite !elem_of_cons, elem_of_nil. intuition congruence.
Defined.

(** ** Cancellation by the client *)



(** ** The totals invariant *)

Section StatusOnly.

Variable accepts : Write -> bool.

Lemma updateOrderStatus_cases now id status db :
  fst (updateOrderStatus accepts now id status db) = db
  \/ exists orderId order to n,
       id = Some orderId
       /\ orders db !! orderId = Some order
       /\ fst (updateOrderStatus accepts now id status db)
          = status_changed db orderId order to now n.
Proof.
  unfold updateOrderStatus, order_findUnique.
  cbn [validationResult patch_status_chain flat_map OrderWhere.id OrderWhere.userId].
  destruct id as [orderId|]; [|by left].
  destruct (orders db !! orderId) as [order|] eqn:Ho; [|by left].
  destruct (validTransitions_table (Order.status order) status) as (allowed & -> & Hiff).
  case_bool_decide as Hin; cbn [negb]; [|by left].
  apply Hiff in Hin as (to & Hto & _).
  rewrite (status_transaction accepts now orderId status _ db order to Ho Hto).
  destruct (_ && _); [|by left].
  right. by eexists orderId, order, to, _.
Qed.

Lemma cancelOrder_cases now user id db :
  fst (cancelOrder accepts now user id db) = db
  \/ exists orderId order n,
       id = Some orderId
       /\ orders db !! orderId = Some order
       /\ fst (cancelOrder accepts now user id db)
          = status_changed db orderId order CANCELLED now n.
Proof.
  unfold cancelOrder, order_findUnique. cbn [OrderWhere.id OrderWhere.userId].
  destruct id as [orderId|]; [|by left].
  destruct (orders db !! orderId) as [order|] eqn:Ho; [|by left].
  case_bool_decide; [by left|]. case_bool_decide; [by left|].
  rewrite (status_transaction accepts now orderId "CANCELLED" _ db order CANCELLED Ho eq_refl).
  destruct (_ && _); [|by left].
  right. by eexists orderId, order, _.
Qed.

End StatusOnly.

Lemma same_but_status_refl (o : Order.t) : same_but_status o o.
Proof. by repeat split. Qed.




(** ** Reading an order *)





Example ana_sees_the_same : agree_for 7 Sample.db1 Sample.db2.
Proof. repeat split; vm_compute; reflexivity. Qed.

(** Orders stay stored under their [id]. *)
Lemma handle_keyed (accepts : Write -> bool) (now : Z) (req : Request) (db : DB) :
  keyed db -> keyed (fst (handle accepts now req db)).
Proof.
  intros Hk.
  assert (Hst : forall orderId order to n,
            orders db !! orderId = Some order ->
            keyed (status_changed db orderId order to now n)).
  { intros orderId order to n Ho k o. unfold status_changed. cbn [orders].
    intros [[<- <-]|[_ H]]%lookup_insert_Some; [|by apply Hk].
    exact (Hk _ _ Ho). }
  destruct req as [user body|id0 status|user id0]; cbn [handle].
  - destruct (createOrder_cases accepts now user body db
                (fst (createOrder accepts now user body db))
                (snd (createOrder accepts now user body db)))
      as [(f & _ & ->)|(o1 & lines & rows & Hp & _)];
      [by destruct (createOrder _ _ _ _ _)|done|].
    destruct Hp as [_ _ _ _ _ _ _ _ _ _ _ _ ->]. intros k o. cbn [orders].
    intros [[<- <-]|[_ H]]%lookup_insert_Some; [done|by apply Hk].
  - destruct (updateOrderStatus_cases accepts now id0 status db)
      as [->|(orderId & order & to & n & _ & Hord & ->)]; eauto.
  - destruct (cancelOrder_cases accepts now user id0 db)
      as [->|(orderId & order & n & _ & Hord & ->)]; eauto.
Qed.

Lemma sample_keyed : keyed Sample.db1 /\ keyed Sample.db2.
Proof.
  assert (H1 : keyed Sample.db1).
  { apply (handle_keyed always 1000
             (CreateOrder Sample.ana (Sample.request [Sample.line 1 (Some 2)])) Sample.db).
    intros k o H. change (orders Sample.db) with (∅ : gmap Z Order.t) in H.
    by rewrite lookup_empty in H. }
  split; [done|].
  by apply (handle_keyed always 1001
              (CreateOrder Sample.luis (Sample.request [Sample.line 2 (Some 5)]))
              Sample.db1).
Qed.


(** ** What a request does to the database *)

Section Effects.

Variable accepts : Write -> bool.

(** The outcome of [updateOrderStatus]: a failure that leaves the database
    alone, or a transition of the table with its notification. *)
Lemma updateOrderStatus_effect now id status db :
  (is_success (snd (updateOrderStatus accepts now id status db)) = false
   /\ fst (updateOrderStatus accepts now id status db) = db)
  \/ exists orderId order to,
       id = Some orderId
       /\ orders db !! orderId = Some order
       /\ parse_status status = Some to
       /\ transition (Order.status order) to
       /\ updateOrderStatus accepts now id status db
          = (status_changed db orderId order to now
               (Notification.mk (next_row (notifications db)) (Order.userId order)
                  (NotificationCreate.title
                     (status_notification (Order.userId order) orderId status))
                  (NotificationCreate.message
                     (status_notification (Order.userId order) orderId status))
                  ORDER false (Some orderId) now),
             Updated (with_status order to now)).
Proof.
  unfold updateOrderStatus, order_findUnique.
  cbn [validationResult patch_status_chain flat_map OrderWhere.id OrderWhere.userId].
  destruct id as [orderId|]; [|by left].
  destruct (orders db !! orderId) as [order|] eqn:Ho; [|by left].
  destruct (validTransitions_table (Order.status order) status) as (allowed & -> & Hiff).
  case_bool_decide as Hin; cbn [negb]; [|by left].
  apply Hiff in Hin as (to & Hto & Htab).
  rewrite (status_transaction accepts now orderId status _ db order to Ho Hto).
  destruct (_ && _); [|by left].
  right. by exists orderId, order, to.
Qed.

(** The outcome of [cancelOrder]. *)
Lemma cancelOrder_effect now user id db :
  (is_success (snd (cancelOrder accepts now user id db)) = false
   /\ fst (cancelOrder accepts now user id db) = db)
  \/ exists orderId order,
       id = Some orderId
       /\ orders db !! orderId = Some order
       /\ Order.userId order = JWTPayload.userId user
       /\ Order.status order = PENDING
       /\ cancelOrder accepts now user id db
          = (status_changed db orderId order CANCELLED now
               (Notification.mk (next_row (notifications db)) (JWTPayload.userId user)
                  "Pedido cancelado"
                  (NotificationCreate.message
                     (cancelled_notification (JWTPayload.userId user) orderId))
                  ORDER false (Some orderId) now),
             Updated (with_status order CANCELLED now)).
Proof.
  unfold cancelOrder, order_findUnique. cbn [OrderWhere.id OrderWhere.userId].
  destruct id as [orderId|]; [|by left].
  destruct (orders db !! orderId) as [order|] eqn:Ho; [|by left].
  case_bool_decide as Hown; [by left|]. case_bool_decide as Hst; [by left|].
  rewrite (status_transaction accepts now orderId "CANCELLED" _ db order CANCELLED Ho eq_refl).
  destruct (_ && _); [|by left].
  right. by exists orderId, order.
Qed.

(** The outcome of [createOrder], with [fst] and [snd] of the result. *)
Lemma createOrder_effect now user body db :
  (is_success (snd (createOrder accepts now user body db)) = false
   /\ fst (createOrder accepts now user body db) = db)
  \/ exists o lines rows,
       placed now user body db o lines rows (fst (createOrder accepts now user body db))
       /\ snd (createOrder accepts now user body db)
          = Created (Some (include_relations false
                             (fst (createOrder accepts now user body db)) o)).
Proof.
  destruct (createOrder_cases accepts now user body db
              (fst (createOrder accepts now user body db))
              (snd (createOrder accepts now user body db)))
    as [(f & Hr & Hdb)|H]; [by destruct (createOrder _ _ _ _ _)| |by right].
  left. by rewrite Hr.
Qed.

End Effects.

Lemma transition_cancel_pending : transition PENDING CANCELLED.
Proof. unfold transition, transition_table. rewrite !elem_of_cons. auto. Qed.

(** What one request does to a stored order. *)
Lemma handle_order_step accepts now req db id o :
  orders db !! id = Some o ->
  exists o',
    orders (fst (handle accepts now req db)) !! id = Some o'
    /\ same_but_status o o'
    /\ (Order.status o' = Order.status o \/ transition (Order.status o) (Order.status o')).
Proof.
  intros Ho. destruct req as [user body|id0 status|user id0]; cbn [handle].
  - destruct (createOrder_effect accepts now user body db)
      as [[_ ->]|(o1 & lines & rows & Hp & _)];
      [eauto using same_but_status_refl|].
    destruct Hp as [_ _ Hfresh _ _ _ _ _ _ _ _ _ ->]. cbn [orders].
    rewrite lookup_insert_ne by congruence. eauto using same_but_status_refl.
  - destruct (updateOrderStatus_effect accepts now id0 status db)
      as [[_ ->]|(orderId & order & to & _ & Hord & _ & Htr & ->)];
      [eauto using same_but_status_refl|].
    cbn [fst]. unfold status_changed. cbn [orders].
    destruct (decide (orderId = id)) as [->|Hne].
    + rewrite lookup_insert_eq. rewrite Ho in Hord. injection Hord as <-.
      eexists; split; [done|]. split; [by repeat split|]. by right.
    + rewrite lookup_insert_ne by done. eauto using same_but_status_refl.
  - destruct (cancelOrder_effect accepts now user id0 db)
      as [[_ ->]|(orderId & order & _ & Hord & _ & Hst & ->)];
      [eauto using same_but_status_refl|].
    cbn [fst]. unfold status_changed. cbn [orders].
    destruct (decide (orderId = id)) as [->|Hne].
    + rewrite lookup_insert_eq. rewrite Ho in Hord. injection Hord as <-.
      eexists; split; [done|]. split; [by repeat split|]. right.
      cbn. rewrite Hst. apply transition_cancel_pending.
    + rewrite lookup_insert_ne by done. eauto using same_but_status_refl.
Qed.

Lemma same_but_status_trans (o1 o2 o3 : Order.t) :
  same_but_status o1 o2 -> same_but_status o2 o3 -> same_but_status o1 o3.
Proof.
  intros (?&?&?&?&?&?&?&?&?) (?&?&?&?&?&?&?&?&?). repeat split; congruence.
Qed.

(** Along a run the status of a stored order follows the table. *)
Lemma run_order_path accepts reqs : forall db id o,
  orders db !! id = Some o ->
  exists o',
    orders (run accepts reqs db) !! id = Some o'
    /\ same_but_status o o'
    /\ rtc transition (Order.status o) (Order.status o').
Proof.
  induction reqs as [|[now req] reqs IH]; intros db id o Ho.
  - exists o. split; [done|]. split; [apply same_but_status_refl|done].
  - destruct (handle_order_step accepts now req db id o Ho) as (o1 & Ho1 & Hs1 & Hstep).
    destruct (IH _ id o1 Ho1) as (o' & Ho' & Hs' & Hpath).
    exists o'. split; [exact Ho'|]. split; [by eapply same_but_status_trans|].
    destruct Hstep as [<-|Hstep]; [done|]. by eapply rtc_l.
Qed.

(** X1. Orders only move forward. Whatever requests the order controller
    handles, with whatever outcome of the writes, a stored order stays
    stored, keeps every field but its status and [updatedAt], and its
    status is reached from the earlier one by transitions of the table. *)
Theorem orders_follow_the_table (accepts : Write -> bool) (reqs : list (Z * Request))
    (db : DB) (id : Z) (o : Order.t) :
  orders db !! id = Some o ->
  exists o',
    orders (run accepts reqs db) !! id = Some o'
    /\ same_but_status o o'
    /\ rtc transition (Order.status o) (Order.status o').
Proof. apply run_order_path. Qed.

Lemma terminal_no_transition (from to : OrderStatus) :
  from = DELIVERED \/ from = CANCELLED -> ~ transition from to.
Proof.
  unfold transition, transition_table. rewrite !elem_of_cons, elem_of_nil.
  intros [-> | ->]; intuition congruence.
Qed.

Lemma terminal_path (from to : OrderStatus) :
  from = DELIVERED \/ from = CANCELLED -> rtc transition from to -> to = from.
Proof.
  intros Hterm Hpath. destruct Hpath as [|x y z Hstep _]; [done|].
  by apply terminal_no_transition in Hstep.
Qed.

(** X2. DELIVERED and CANCELLED are final. For an order in one of them,
    every status the administrator requests is answered
    INVALID_STATUS_TRANSITION, every cancellation fails, both without any
    change, and the order keeps its status through every run. *)
Theorem final_statuses_stay (accepts : Write -> bool) (db : DB) (id : Z) (o : Order.t) :
  orders db !! id = Some o ->
  Order.status o = DELIVERED \/ Order.status o = CANCELLED ->
  (forall now status,
     updateOrderStatus accepts now (Some id) status db
     = (db, Failed (INVALID_STATUS_TRANSITION (Order.status o) status)))
  /\ (forall now user,
        is_success (snd (cancelOrder accepts now user (Some id) db)) = false
        /\ fst (cancelOrder accepts now user (Some id) db) = db)
  /\ (forall reqs,
        exists o', orders (run accepts reqs db) !! id = Some o'
                   /\ Order.status o' = Order.status o).
Proof.
  intros Ho Hterm. split; [|split].
  - intros now status.
    unfold updateOrderStatus, order_findUnique.
    cbn [validationResult patch_status_chain flat_map OrderWhere.id OrderWhere.userId].
    rewrite Ho.
    destruct (validTransitions_table (Order.status o) status) as (allowed & -> & Hiff).
    rewrite bool_decide_eq_false_2; [done|].
    intros (to & _ & Htab)%Hiff. by eapply terminal_no_transition.
  - intros now user.
    destruct (cancelOrder_effect accepts now user (Some id) db)
      as [H|(orderId & order & [= <-] & Hord & _ & Hst & _)]; [done|].
    rewrite Ho in Hord. injection Hord as <-. rewrite Hst in Hterm.
    destruct Hterm; discriminate.
  - intros reqs.
    destruct (run_order_path accepts reqs db id o Ho) as (o' & Ho' & _ & Hpath).
    exists o'. split; [done|]. by apply terminal_path.
Qed.

Lemma orderItems_status_changed db orderId order to now n :
  orderItems (status_changed db orderId order to now n) = orderItems db.
Proof. done. Qed.

(** X3. Every writing request is all or nothing, and none rewrites what is
    stored: a request that fails leaves the database as it was; one that
    succeeds appends exactly one notification; in both cases users and
    products are untouched, no order disappears, at most one order is
    added, and the order lines already stored stay as they are, new ones
    being appended. *)
Theorem requests_append_only (accepts : Write -> bool) (now : Z) (req : Request) (db : DB) :
  let db' := fst (handle accepts now req db) in
  let r := snd (handle accepts now req db) in
  (is_success r = false -> db' = db)
  /\ (is_success r = true -> exists n, notifications db' = notifications db ++ [n])
  /\ users db' = users db
  /\ products db' = products db
  /\ dom (orders db) ⊆ dom (orders db')
  /\ (size (orders db') <= S (size (orders db)))%nat
  /\ exists rows, orderItems db' = orderItems db ++ rows.
Proof.
  cbn zeta. destruct req as [user body|id0 status|user id0]; cbn [handle].
  - destruct (createOrder_effect accepts now user body db)
      as [[Hf ->]|(o1 & lines & rows & Hp & Hr)].
    + rewrite Hf. repeat split; try done; try lia. exists []. by rewrite app_nil_r.
    + rewrite Hr. destruct Hp as [_ _ Hfresh _ _ _ _ _ _ _ _ _ ->]. cbn.
      split; [done|]. split; [eauto|]. split; [done|]. split; [done|].
      split; [rewrite dom_insert; set_solver|].
      split; [by rewrite map_size_insert_None|]. eauto.
  - destruct (updateOrderStatus_effect accepts now id0 status db)
      as [[Hf ->]|(orderId & order & to & _ & Hord & _ & _ & ->)].
    + rewrite Hf. repeat split; try done; try lia. exists []. by rewrite app_nil_r.
    + cbn. split; [done|]. split; [eauto|]. split; [done|]. split; [done|].
      split; [rewrite dom_insert; set_solver|].
      split; [rewrite map_size_insert_Some by eauto; lia|].
      exists []. by rewrite app_nil_r.
  - destruct (cancelOrder_effect accepts now user id0 db)
      as [[Hf ->]|(orderId & order & _ & Hord & _ & _ & ->)].
    + rewrite Hf. repeat split; try done; try lia. exists []. by rewrite app_nil_r.
    + cbn. split; [done|]. split; [eauto|]. split; [done|]. split; [done|].
      split; [rewrite dom_insert; set_solver|].
      split; [rewrite map_size_insert_Some by eauto; lia|].
      exists []. by rewrite app_nil_r.
Qed.

(** One request keeps orders under their ids and references resolved. *)
Lemma handle_references accepts now req db :
  keyed db -> references_resolve db ->
  references_resolve (fst (handle accepts now req db)).
Proof.
  intros Hk [Hitems Hnotes].
  assert (Hst : forall orderId order to n,
            orders db !! orderId = Some order ->
            Notification.orderId n = Some orderId ->
            references_resolve (status_changed db orderId order to now n)).
  { intros orderId order to n Ho Hn. unfold status_changed. split; cbn.
    - intros it Hit. rewrite lookup_insert_is_Some. 
      destruct (decide (orderId = OrderItem.orderId it)); [by left|right].
      split; [done|]. by apply Hitems.
    - intros n' oid Hn' Hoid. rewrite lookup_insert_is_Some.
      destruct (decide (orderId = oid)); [by left|right]. split; [done|].
      apply elem_of_app in Hn' as [Hn'|Hn'%list_elem_of_singleton]; [by eapply Hnotes|].
      subst n'. congruence. }
  destruct req as [user body|id0 status|user id0]; cbn [handle].
  - destruct (createOrder_effect accepts now user body db)
      as [[_ ->]|(o1 & lines & rows & Hp & _)]; [done|].
    destruct Hp as [_ _ Hfresh _ _ _ _ _ _ _ _ Hrows ->]. split; cbn.
    + intros it [Hit|Hit]%elem_of_app; rewrite lookup_insert_is_Some.
      * destruct (decide (Order.id o1 = OrderItem.orderId it)); [by left|right].
        split; [done|]. by apply Hitems.
      * left. apply list_elem_of_lookup in Hit as [i Hi].
        destruct (Forall2_lookup_r _ _ _ _ _ Hrows Hi) as (l & _ & Hrow).
        symmetry. apply Hrow.
    + intros n oid [Hn|Hn%list_elem_of_singleton]%elem_of_app Hoid;
        rewrite lookup_insert_is_Some.
      * destruct (decide (Order.id o1 = oid)); [by left|right].
        split; [done|]. by eapply Hnotes.
      * left. subst n. cbn in Hoid. congruence.
  - destruct (updateOrderStatus_effect accepts now id0 status db)
      as [[_ ->]|(orderId & order & to & _ & Hord & _ & _ & ->)]; [done|].
    by apply Hst.
  - destruct (cancelOrder_effect accepts now user id0 db)
      as [[_ ->]|(orderId & order & _ & Hord & _ & _ & ->)]; [done|].
    by apply Hst.
Qed.

(** X4. Referential integrity is kept: if every order is stored under its
    id and every order line and order notification refers to a stored
    order, the same holds after any run of requests. *)
Theorem references_stay_resolved (accepts : Write -> bool) (reqs : list (Z * Request))
    (db : DB) :
  keyed db -> references_resolve db ->
  keyed (run accepts reqs db) /\ references_resolve (run accepts reqs db).
Proof.
  revert db. induction reqs as [|[now req] reqs IH]; intros db Hk Hr; [done|].
  apply IH; [by apply handle_keyed|by apply handle_references].
Qed.

(** One request keeps the notifications addressed to the owners. *)
Lemma handle_addressed accepts now req db :
  references_resolve db -> addressed_to_owner db ->
  addressed_to_owner (fst (handle accepts now req db)).
Proof.
  intros [_ Hnotes] Haddr.
  assert (Hst : forall orderId order to n,
            orders db !! orderId = Some order ->
            Notification.orderId n = Some orderId ->
            Notification.userId n = Order.userId order ->
            addressed_to_owner (status_changed db orderId order to now n)).
  { intros orderId order to n Ho Hn Hu n' oid o'. unfold status_changed. cbn.
    intros Hn' Hoid Ho'.
    assert (Hown : exists o, orders db !! oid = Some o /\ Order.userId o' = Order.userId o).
    { destruct (decide (orderId = oid)) as [->|Hne].
      - rewrite lookup_insert_eq in Ho'. injection Ho' as <-. eauto.
      - rewrite lookup_insert_ne in Ho' by done. eauto. }
    destruct Hown as (o & Ho0 & ->).
    apply elem_of_app in Hn' as [Hn'|Hn'%list_elem_of_singleton]; [by eapply Haddr|].
    subst n'. congruence. }
  destruct req as [user body|id0 status|user id0]; cbn [handle].
  - destruct (createOrder_effect accepts now user body db)
      as [[_ ->]|(o1 & lines & rows & Hp & _)]; [done|].
    destruct Hp as [_ _ Hfresh Hu _ _ _ _ _ _ _ _ ->]. intros n oid o. cbn.
    intros [Hn|Hn%list_elem_of_singleton]%elem_of_app Hoid Ho.
    + destruct (decide (Order.id o1 = oid)) as [<-|Hne].
      * destruct (Hnotes n _ Hn Hoid) as [x Hx]. congruence.
      * rewrite lookup_insert_ne in Ho by done. by eapply Haddr.
    + subst n. cbn in *. injection Hoid as <-.
      rewrite lookup_insert_eq in Ho. injection Ho as <-. done.
  - destruct (updateOrderStatus_effect accepts now id0 status db)
      as [[_ ->]|(orderId & order & to & _ & Hord & _ & _ & ->)]; [done|].
    by apply Hst.
  - destruct (cancelOrder_effect accepts now user id0 db)
      as [[_ ->]|(orderId & order & _ & Hord & Hown & _ & ->)]; [done|].
    by apply Hst.
Qed.

(** X5. Notifications about an order go to its owner only: in a database
    with resolved references where every notification that names an order
    is addressed to that order's owner, this stays so after any run of
    requests, whoever issued them (an administrator's status change
    notifies the owner, not the administrator). *)
Theorem notifications_reach_the_owner (accepts : Write -> bool)
    (reqs : list (Z * Request)) (db : DB) :
  keyed db -> references_resolve db -> addressed_to_owner db ->
  addressed_to_owner (run accepts reqs db).
Proof.
  revert db. induction reqs as [|[now req] reqs IH]; intros db Hk Hr Ha; [done|].
  apply IH; [by apply handle_keyed|by apply handle_references|by apply handle_addressed].
Qed.

Lemma filter_new_rows now oid lines rows (old : list OrderItem.t) :
  (forall it, it ∈ old -> OrderItem.orderId it <> oid) ->
  Forall2 (row_of_line now oid) lines rows ->
  List.filter (fun it => bool_decide (OrderItem.orderId it = oid)) (old ++ rows) = rows.
Proof.
  intros Hold Hrows. rewrite List.filter_app.
  assert (H1 : List.filter (fun it => bool_decide (OrderItem.orderId it = oid)) old = []).
  { clear Hrows. induction old as [|it old IH]; [done|]. simpl.
    rewrite bool_decide_eq_false_2 by (apply Hold; left).
    apply IH. intros it' Hit'. apply Hold. by right. }
  rewrite H1. simpl. clear Hold H1.
  induction Hrows as [|l row ls rs Hrow _ IH]; [done|]. simpl.
  rewrite bool_decide_eq_true_2 by apply Hrow. by rewrite IH.
Qed.

(** X6. A created order can be read back. After a successful [createOrder]
    on a database with resolved references, the response carries the new
    order with one line per requested line; [getOrderById] for the new id
    gives the creator and any administrator that order with the same
    lines, and gives every other client ORDER_NOT_FOUND. *)
Theorem created_order_is_readable (accepts : Write -> bool) (now : Z)
    (user : JWTPayload.t) (body : CreateOrderInput.t) (db db' : DB) (v : OrderView.t)
    (items : list OrderItemInput.t) :
  references_resolve db ->
  CreateOrderInput.items body = Some items ->
  createOrder accepts now user body db = (db', Created (Some v)) ->
  let o := OrderView.order v in
  Order.userId o = JWTPayload.userId user
  /\ orders db' !! Order.id o = Some o
  /\ length (OrderView.orderItems v) = length items
  /\ (forall reader : JWTPayload.t,
        JWTPayload.userId reader = JWTPayload.userId user
        \/ JWTPayload.role reader = "ADMIN" ->
        exists v',
          getOrderById reader (Some (Order.id o)) db' = Fetched v'
          /\ OrderView.order v' = o
          /\ OrderView.item <$> OrderView.orderItems v'
             = OrderView.item <$> OrderView.orderItems v)
  /\ (forall reader : JWTPayload.t,
        JWTPayload.userId reader <> JWTPayload.userId user ->
        JWTPayload.role reader <> "ADMIN" ->
        getOrderById reader (Some (Order.id o)) db' = Failed ORDER_NOT_FOUND).
Proof.
  intros [Hitems _] Hbody Hcreate.
  destruct (createOrder_cases accepts now user body db db' _ Hcreate)
    as [(f & [=] & _)|(o & lines & rows & Hp & [= ->])].
  destruct Hp as [(items2 & Hi2 & Hproc) _ Hfresh Hu _ _ _ _ _ _ _ Hrows ->].
  rewrite Hbody in Hi2. injection Hi2 as <-.
  destruct (process_items_inr _ _ _ _ _ _ Hproc) as (lines' & Hl & Hpriced & _).
  simpl in Hl. subst lines'.
  assert (Hfilter :
    List.filter (fun it => bool_decide (OrderItem.orderId it = Order.id o))
      (orderItems db ++ rows) = rows).
  { eapply filter_new_rows; [|done]. intros it Hit Heq.
    destruct (Hitems it Hit) as [x Hx]. congruence. }
  cbn zeta. cbn [include_relations OrderView.order OrderView.orderItems orders orderItems].
  rewrite Hfilter.
  split; [done|]. split; [by rewrite lookup_insert_eq|].
  split.
  { rewrite length_map. rewrite <- (Forall2_length _ _ _ Hrows).
    symmetry. by eapply Forall2_length. }
  split.
  - intros reader Hreader. unfold getOrderById, order_findUnique.
    cbn [OrderWhere.id OrderWhere.userId orders]. rewrite lookup_insert_eq.
    eexists. split.
    + case_bool_decide as Hrole; [|done].
      destruct Hreader as [Hid|Hadm]; [|done].
      by rewrite bool_decide_eq_true_2 by congruence.
    + cbn [include_relations OrderView.order OrderView.orderItems orderItems].
      rewrite Hfilter. split; [done|].
      rewrite <- !list_fmap_compose. done.
  - intros reader Hne Hrole. unfold getOrderById, order_findUnique.
    cbn [OrderWhere.id OrderWhere.userId orders]. rewrite lookup_insert_eq.
    rewrite bool_decide_eq_true_2 by done.
    by rewrite bool_decide_eq_false_2 by congruence.
Qed.

(** X7. The lines of a created order are stored as they were sent: product
    and customizations unchanged, and the special notes unchanged except
    that an empty text is stored as no notes. *)
Theorem lines_stored_as_sent (accepts : Write -> bool) (now : Z) (user : JWTPayload.t)
    (body : CreateOrderInput.t) (db : DB) (items : list OrderItemInput.t) :
  CreateOrderInput.items body = Some items ->
  is_success (snd (createOrder accepts now user body db)) = true ->
  exists rows,
    orderItems (fst (createOrder accepts now user body db)) = orderItems db ++ rows
    /\ Forall2
         (fun item row =>
            OrderItem.productId row = OrderItemInput.productId item
            /\ OrderItem.customizations row = OrderItemInput.customizations item
            /\ (OrderItemInput.specialNotes item = Some "" ->
                OrderItem.specialNotes row = None)
            /\ (OrderItemInput.specialNotes item <> Some "" ->
                OrderItem.specialNotes row = OrderItemInput.specialNotes item))
         items rows.
Proof.
  intros Hitems Hok.
  destruct (createOrder_effect accepts now user body db)
    as [[Hf _]|(o & lines & rows & Hp & _)]; [congruence|].
  destruct Hp as [(items2 & Hi2 & Hproc) _ _ _ _ _ _ _ _ _ _ Hrows ->].
  rewrite Hitems in Hi2. injection Hi2 as <-.
  exists rows. split; [done|].
  destruct (process_items_inr _ _ _ _ _ _ Hproc) as (lines' & Hl & Hpriced & _).
  simpl in Hl. subst lines'. clear -Hpriced Hrows. revert rows Hrows.
  induction Hpriced as [|item l ? ? Hp _ IH]; intros rows Hrows;
    inversion Hrows as [|? row ? rs Hrow Hrest]; subst; [done|].
  constructor; [|by apply IH].
  destruct Hp as (_ & _ & _ & Hpid & _ & _ & _ & Hc & Hn).
  destruct Hrow as (_ & Hpid' & _ & _ & Hc' & Hn' & _).
  rewrite Hpid', Hc', Hn', Hpid, Hc, Hn. unfold JS.str_or_null.
  split; [done|]. split; [done|]. split; [by intros ->|].
  destruct (OrderItemInput.specialNotes item) as [s|]; [|done].
  intros Hne. destruct (decide (s = "")) as [->|]; [done|done].
Qed.

(** ** Listing orders *)

Lemma order_matches_listed (w : OrderFilter.t) (o : Order.t) :
  match OrderFilter.status w with
  | Some s =>
      forall st, parse_status s = Some st ->
        order_matches w (Some st) o = true
        <-> listed_order (OrderFilter.userId w) (Some s) (OrderFilter.createdAt w) o
  | None =>
      order_matches w None o = true
      <-> listed_order (OrderFilter.userId w) None (OrderFilter.createdAt w) o
  end.
Proof.
  unfold order_matches, listed_order.
  destruct (OrderFilter.status w) as [s|].
  - intros st Hst%parse_status_name. subst s.
    assert (Hinj : Order.status o = st
                   <-> status_name (Order.status o) = status_name st).
    { split; [congruence|]. by destruct (Order.status o), st. }
    destruct (OrderFilter.userId w), (OrderFilter.createdAt w) as [[a b]|];
      rewrite ?andb_true_iff, ?bool_decide_eq_true, ?Z.leb_le, ?Z.ltb_lt, Hinj;
      split; intros; destruct_and?; repeat split; try done; lia.
  - destruct (OrderFilter.userId w), (OrderFilter.createdAt w) as [[a b]|];
      rewrite ?andb_true_iff, ?bool_decide_eq_true, ?Z.leb_le, ?Z.ltb_lt;
      split; intros; destruct_and?; repeat split; try done; lia.
Qed.

Lemma stored_rows (db : DB) (o : Order.t) :
  o ∈ (map_to_list (orders db)).*2 <-> exists id, orders db !! id = Some o.
Proof.
  rewrite list_elem_of_fmap. split.
  - intros ([id o'] & -> & H%elem_of_map_to_list). eauto.
  - intros [id H]. exists (id, o). split; [done|]. by apply elem_of_map_to_list.
Qed.

Lemma filter_rows_size (db : DB) (f : Order.t -> bool) (P : Order.t -> Prop)
    `{!forall o, Decision (P o)} :
  (forall o, f o = true <-> P o) ->
  length (List.filter f (map_to_list (orders db)).*2)
  = size (filter (fun kv : Z * Order.t => P kv.2) (orders db)).
Proof.
  intros Hf. rewrite map_filter_alt.
  rewrite map_size_list_to_map.
  2:{ eapply NoDup_fmap_fst.
      - intros k x y [_ Hx]%list_elem_of_filter [_ Hy]%list_elem_of_filter.
        rewrite elem_of_map_to_list in Hx, Hy. congruence.
      - apply NoDup_filter, NoDup_map_to_list. }
  induction (map_to_list (orders db)) as [|[k o] l IH]; [done|].
  cbn [fmap list_fmap List.filter]. rewrite filter_cons. cbn [snd].
  destruct (f o) eqn:Ef.
  - rewrite decide_True by by apply Hf. cbn. by rewrite IH.
  - rewrite decide_False; [done|]. rewrite <- Hf. congruence.
Qed.

(** The rows a [where] clause selects are the stored orders the listing is
    about, and a status outside the enum refuses the query. *)
Lemma order_where_Some (w : OrderFilter.t) (db : DB) (rows : list Order.t) :
  order_where w db = Some rows ->
  (forall s, OrderFilter.status w = Some s -> is_Some (parse_status s))
  /\ (forall o, o ∈ rows <->
        (exists id, orders db !! id = Some o)
        /\ listed_order (OrderFilter.userId w) (OrderFilter.status w)
             (OrderFilter.createdAt w) o)
  /\ length rows
     = listed_count (OrderFilter.userId w) (OrderFilter.status w)
         (OrderFilter.createdAt w) db.
Proof.
  unfold order_where. pose proof (order_matches_listed w) as Hm.
  destruct (OrderFilter.status w) as [s|] eqn:Es.
  - destruct (parse_status s) as [st|] eqn:Est; [|done].
    intros [= <-]. split; [intros ? [= <-]; eauto|]. split.
    + intros o. rewrite list_elem_of_In, List.filter_In, <- list_elem_of_In.
      rewrite stored_rows. specialize (Hm o st eq_refl). tauto.
    + unfold listed_count. apply filter_rows_size. intros o. by apply Hm.
  - intros [= <-]. split; [done|]. split.
    + intros o. rewrite list_elem_of_In, List.filter_In, <- list_elem_of_In.
      rewrite stored_rows. specialize (Hm o). tauto.
    + unfold listed_count. apply filter_rows_size. intros o. by apply Hm.
Qed.

Lemma window_elem {A} (s t : Z) (l : list A) (x : A) :
  x ∈ window s t l -> x ∈ l.
Proof.
  unfold window. destruct (0 <=? t).
  - intros H. eapply sublist_subseteq; [|exact H].
    etrans; [apply sublist_take|apply sublist_drop].
  - rewrite !list_elem_of_In, <- in_rev, <- !list_elem_of_In. intros H.
    rewrite list_elem_of_In, in_rev, <- list_elem_of_In.
    eapply sublist_subseteq; [|exact H].
    etrans; [apply sublist_take|apply sublist_drop].
Qed.

Lemma window_length {A} (s t : Z) (l : list A) :
  0 <= t -> (length (window s t l) <= Z.to_nat t)%nat.
Proof.
  intros Ht. unfold window. rewrite (proj2 (Z.leb_le 0 t) Ht).
  rewrite length_take. lia.
Qed.

Lemma window_sublist {A} (s t : Z) (l : list A) :
  0 <= t -> window s t l `sublist_of` l.
Proof.
  intros Ht. unfold window. rewrite (proj2 (Z.leb_le 0 t) Ht).
  etrans; [apply sublist_take|apply sublist_drop].
Qed.

Lemma window_all {A} (t : Z) (l : list A) :
  Z.of_nat (length l) <= t -> window 0 t l = l.
Proof.
  intros Ht. unfold window.
  rewrite (proj2 (Z.leb_le 0 t)) by lia.
  cbn [Z.to_nat drop]. apply take_ge. lia.
Qed.

Lemma StronglySorted_sublist {A} (R : relation A) (l k : list A) :
  k `sublist_of` l -> StronglySorted R l -> StronglySorted R k.
Proof.
  induction 1 as [|x k l Hs IH|x k l Hs IH]; intros Hl.
  - constructor.
  - apply StronglySorted_inv in Hl as [Hl Hx]. constructor; [auto|].
    rewrite Forall_forall in Hx |- *. intros y Hy. apply Hx.
    eapply sublist_subseteq; [exact Hs|done].
  - apply StronglySorted_inv in Hl as [Hl _]. auto.
Qed.

(** The first page: [(1 - 1) * limit] is zero for every whole [limit]. *)
Lemma first_page_skip (limit : JS.number) (n : Z) :
  JS.to_Z limit = Some n ->
  JS.to_Z (PrimFloat.mul (PrimFloat.sub (JS.of_Z 1) (JS.of_Z 1)) limit) = Some 0.
Proof.
  unfold JS.to_Z. rewrite FloatAxioms.mul_spec.
  replace (Prim2SF (PrimFloat.sub (JS.of_Z 1) (JS.of_Z 1))) with (S754_zero false)
    by (vm_compute; reflexivity).
  destruct (Prim2SF limit) as [b| | |b m e]; try done.
Qed.

Lemma fmap_id_ext {A} (f : A -> A) (l : list A) :
  (forall x, f x = x) -> f <$> l = l.
Proof. intros Hf. induction l as [|x l IH]; [done|]. cbn. by rewrite Hf, IH. Qed.

Global Instance not_older_trans : Transitive not_older.
Proof. intros a b c. unfold not_older. lia. Qed.

Global Instance not_older_total : Total not_older.
Proof. intros a b. unfold not_older. lia. Qed.

Section ListingFacts.

Variable newest_first : list Order.t -> list Order.t.
Variable parse_Date : string -> option Z.
Variable next_day : Z -> Z.

(** The store answers with the selected rows, each once. *)
Hypothesis newest_first_rows : forall l, newest_first l ≡ₚ l.

Lemma order_findMany_rows w skip take db found o :
  order_findMany newest_first w skip take db = Some found ->
  o ∈ found ->
  (exists id, orders db !! id = Some o)
  /\ listed_order (OrderFilter.userId w) (OrderFilter.status w)
       (OrderFilter.createdAt w) o.
Proof.
  unfold order_findMany. intros H Ho.
  destruct (order_where w db) as [rows|] eqn:Hw; [|done].
  apply order_where_Some in Hw as (_ & Hrows & _).
  cbn [mbind option_bind] in H.
  destruct (JS.to_Z skip) as [s|]; [|done]. cbn [mbind option_bind] in H.
  destruct (JS.to_Z take) as [t|]; [|done]. cbn [mbind option_bind] in H.
  destruct (_ && _); [|done]. injection H as <-.
  apply window_elem in Ho. rewrite newest_first_rows in Ho. by apply Hrows.
Qed.

Lemma order_count_listed w db total :
  order_count w db = Some total ->
  total = JS.of_Z (Z.of_nat (listed_count (OrderFilter.userId w)
                               (OrderFilter.status w) (OrderFilter.createdAt w) db))
  /\ (forall s, OrderFilter.status w = Some s -> is_Some (parse_status s)).
Proof.
  unfold order_count. destruct (order_where w db) as [rows|] eqn:Hw; [|done].
  apply order_where_Some in Hw as (Hs & _ & <-). by intros [= <-].
Qed.

(** X8. GET /api/orders/my-orders shows a user their own orders only: every
    order of a successful listing is stored, belongs to the caller and is in
    the status asked for (when one is asked for, it is a status of the
    enum); it comes with its own lines and without the user record.  The
    [total] of the pagination counts all of the caller's stored orders in
    that status, whatever the page. *)
Theorem getUserOrders_own_orders (user : JWTPayload.t) (q : OrdersQuery.t) (db : DB)
    (data : list OrderView.t) (pg : Pagination.t) :
  getUserOrders newest_first user q db = Listed data pg ->
  (forall v, v ∈ data ->
     (exists id, orders db !! id = Some (OrderView.order v))
     /\ Order.userId (OrderView.order v) = JWTPayload.userId user
     /\ (forall s, truthy_string (OrdersQuery.status q) = Some s ->
           status_name (Order.status (OrderView.order v)) = s)
     /\ (forall ln, ln ∈ OrderView.orderItems v ->
           OrderItem.orderId (OrderView.item ln) = Order.id (OrderView.order v)
           /\ OrderView.item ln ∈ orderItems db)
     /\ OrderView.user v = None)
  /\ (forall s, truthy_string (OrdersQuery.status q) = Some s -> is_Some (parse_status s))
  /\ Pagination.total pg
     = JS.of_Z (Z.of_nat (listed_count (Some (JWTPayload.userId user))
                            (truthy_string (OrdersQuery.status q)) None db))
  /\ Pagination.page pg = default (JS.of_Z 1) (OrdersQuery.page q)
  /\ Pagination.limit pg = default (JS.of_Z 10) (OrdersQuery.limit q).
Proof.
  unfold getUserOrders.
  destruct (order_findMany _ _ _ _ _) as [found|] eqn:Hf; [|done].
  destruct (order_count _ _) as [total|] eqn:Hc; [|done].
  intros [= <- <-]. apply order_count_listed in Hc as [-> Hst].
  cbn [OrderFilter.userId OrderFilter.status OrderFilter.createdAt] in *.
  repeat split; try done.
  all: apply list_elem_of_fmap in H as (o & -> & Ho);
    destruct (order_findMany_rows _ _ _ _ _ _ Hf Ho) as (Hid & Hu & Hs & _);
    cbn [OrderFilter.userId OrderFilter.status OrderFilter.createdAt] in *;
    cbn [include_lines OrderView.order OrderView.orderItems OrderView.user] in *;
    try done.
  - intros s Hq. by rewrite Hq in Hs.
  - apply list_elem_of_In, List.in_map_iff in H0 as (it & <- & Hit).
    apply List.filter_In in Hit as [_ Hit]. by apply bool_decide_eq_true in Hit.
  - apply list_elem_of_In, List.in_map_iff in H0 as (it & <- & Hit).
    apply List.filter_In in Hit as [Hit _]. by apply list_elem_of_In.
Qed.

(** The store answers [orderBy: {createdAt: "desc"}] newest first. *)
Hypothesis newest_first_sorted : forall l, Sorted not_older (newest_first l).

Lemma order_findMany_page w skip take db found n :
  JS.to_Z take = Some n -> 0 <= n ->
  order_findMany newest_first w skip take db = Some found ->
  (length found <= Z.to_nat n)%nat /\ StronglySorted not_older found.
Proof.
  unfold order_findMany. intros Hn Hpos H.
  destruct (order_where w db) as [rows|]; [|done].
  cbn [mbind option_bind] in H.
  destruct (JS.to_Z skip) as [s|]; [|done]. cbn [mbind option_bind] in H.
  rewrite Hn in H. cbn [mbind option_bind] in H.
  destruct (_ && _); [|done]. injection H as <-. split.
  - by apply window_length.
  - eapply StronglySorted_sublist; [by apply window_sublist|].
    apply Sorted_StronglySorted; [apply _|]. apply newest_first_sorted.
Qed.

Lemma order_findMany_first_page w limit db n :
  JS.to_Z limit = Some n -> 0 <= n < 2 ^ 31 ->
  (forall s, OrderFilter.status w = Some s -> is_Some (parse_status s)) ->
  exists rows,
    order_where w db = Some rows
    /\ order_findMany newest_first w
         (PrimFloat.mul (PrimFloat.sub (JS.of_Z 1) (JS.of_Z 1)) limit) limit db
       = Some (window 0 n (newest_first rows)).
Proof.
  intros Hn Hb Hs.
  assert (exists rows, order_where w db = Some rows) as [rows Hrows].
  { unfold order_where. destruct (OrderFilter.status w) as [s|]; [|eauto].
    destruct (Hs s eq_refl) as [st ->]. eauto. }
  exists rows. split; [done|]. unfold order_findMany, is_Int.
  rewrite Hrows, (first_page_skip limit n Hn), Hn. cbn [mbind option_bind].
  replace (- 2 ^ 31 <=? n) with true by (symmetry; apply Z.leb_le; lia).
  replace (n <? 2 ^ 31) with true by (symmetry; apply Z.ltb_lt; lia).
  done.
Qed.


(** X10. The first page of GET /api/orders/my-orders is answered whenever
    the status asked for, if any, is one of the enum and [limit] is a whole
    number from 0 to 2^31 - 1; when the caller's orders in that status are
    no more than [limit], the page shows every one of them. *)
Theorem getUserOrders_first_page (user : JWTPayload.t) (q : OrdersQuery.t) (db : DB)
    (n : Z) :
  default (JS.of_Z 1) (OrdersQuery.page q) = JS.of_Z 1 ->
  JS.to_Z (default (JS.of_Z 10) (OrdersQuery.limit q)) = Some n ->
  0 <= n < 2 ^ 31 ->
  (forall s, truthy_string (OrdersQuery.status q) = Some s -> is_Some (parse_status s)) ->
  exists data pg,
    getUserOrders newest_first user q db = Listed data pg
    /\ ((listed_count (Some (JWTPayload.userId user))
           (truthy_string (OrdersQuery.status q)) None db <= Z.to_nat n)%nat ->
        forall id o,
          orders db !! id = Some o ->
          Order.userId o = JWTPayload.userId user ->
          (forall s, truthy_string (OrdersQuery.status q) = Some s ->
             status_name (Order.status o) = s) ->
          include_lines db o ∈ data).
Proof.
  intros Hpage Hn Hb Hs. unfold getUserOrders. rewrite Hpage.
  set (w := OrderFilter.mk _ _ _).
  destruct (order_findMany_first_page w _ db n Hn Hb Hs) as (rows & Hw & ->).
  unfold order_count. rewrite Hw. cbn [fmap option_fmap option_map].
  eexists _, _. split; [reflexivity|].
  apply order_where_Some in Hw as (_ & Hrows & Hlen).
  subst w. cbn [OrderFilter.userId OrderFilter.status OrderFilter.createdAt] in *.
  intros Hall id o Ho Hu Hst. apply list_elem_of_fmap_2.
  rewrite window_all by (rewrite (Permutation_length (newest_first_rows rows)); lia).
  rewrite newest_first_rows. apply Hrows. split; [eauto|].
  unfold listed_order. repeat split; [done|].
  destruct (truthy_string (OrdersQuery.status q)); [by apply Hst|done].
Qed.

(** X11. GET /api/orders/admin/all: every order of a successful listing is
    stored, is in the status asked for and, when a date is given, was
    created from that date up to, not including, the next day; it comes
    with its lines and its user.  The [total] counts all such stored
    orders.  For a whole [limit] that is not negative the listing has at
    most [limit] orders, newest first. *)
Theorem getAllOrders_filtered (q : OrdersQuery.t) (db : DB)
    (data : list AdminOrderView.t) (pg : Pagination.t) :
  getAllOrders newest_first parse_Date next_day q db = Listed data pg ->
  exists period,
    match truthy_string (OrdersQuery.date q) with
    | None => period = None
    | Some date =>
        exists startDate,
          parse_Date date = Some startDate
          /\ period = Some (startDate, next_day startDate)
    end
    /\ (forall v, v ∈ data ->
          (exists id, orders db !! id = Some (AdminOrderView.order v))
          /\ listed_order None (truthy_string (OrdersQuery.status q)) period
               (AdminOrderView.order v)
          /\ AdminOrderView.user v = users db !! Order.userId (AdminOrderView.order v)
          /\ (forall ln, ln ∈ AdminOrderView.orderItems v ->
                OrderItem.orderId (AdminOrderView.item ln)
                = Order.id (AdminOrderView.order v)))
    /\ Pagination.total pg
       = JS.of_Z (Z.of_nat (listed_count None (truthy_string (OrdersQuery.status q))
                              period db))
    /\ (forall n,
          JS.to_Z (default (JS.of_Z 20) (OrdersQuery.limit q)) = Some n -> 0 <= n ->
          (length data <= Z.to_nat n)%nat
          /\ StronglySorted not_older (AdminOrderView.order <$> data)).
Proof.
  unfold getAllOrders.
  set (period :=
         match truthy_string (OrdersQuery.date q) with
         | Some date => (fun s => (s, next_day s)) <$> parse_Date date
         | None => None
         end).
  intros H. exists period.
  assert (Hanswer :
    match order_findMany newest_first
            (OrderFilter.mk None (truthy_string (OrdersQuery.status q)) period)
            (PrimFloat.mul
               (PrimFloat.sub (default (JS.of_Z 1) (OrdersQuery.page q)) (JS.of_Z 1))
               (default (JS.of_Z 20) (OrdersQuery.limit q)))
            (default (JS.of_Z 20) (OrdersQuery.limit q)) db,
          order_count
            (OrderFilter.mk None (truthy_string (OrdersQuery.status q)) period) db
    with
    | Some found, Some total =>
        Listed (include_admin db <$> found)
          (pagination_of (default (JS.of_Z 1) (OrdersQuery.page q))
             (default (JS.of_Z 20) (OrdersQuery.limit q)) total)
    | _, _ => ListFailed ALL_ORDERS_FETCH_ERROR
    end = Listed data pg
    /\ match truthy_string (OrdersQuery.date q) with
       | None => period = None
       | Some date =>
           exists startDate,
             parse_Date date = Some startDate
             /\ period = Some (startDate, next_day startDate)
       end).
  { subst period. destruct (truthy_string (OrdersQuery.date q)) as [date|]; [|done].
    destruct (parse_Date date) as [startDate|]; [|done]. split; [done|]. eauto. }
  clear H. destruct Hanswer as [H Hperiod]. split; [done|].
  clearbody period.
  destruct (order_findMany _ _ _ _ _) as [found|] eqn:Hf; [|done].
  destruct (order_count _ _) as [total|] eqn:Hc; [|done].
  injection H as <- <-. apply order_count_listed in Hc as [-> _].
  cbn [OrderFilter.userId OrderFilter.status OrderFilter.createdAt].
  split; [|split; [done|]].
  - intros v (o & -> & Ho)%list_elem_of_fmap.
    destruct (order_findMany_rows _ _ _ _ _ _ Hf Ho) as (Hid & Hl).
    cbn [include_admin AdminOrderView.order AdminOrderView.orderItems
         AdminOrderView.user].
    split; [done|]. split; [done|]. split; [done|].
    intros ln (it & <- & Hit)%list_elem_of_In%List.in_map_iff.
    apply List.filter_In in Hit as [_ Hit]. by apply bool_decide_eq_true in Hit.
  - intros n Hn Hpos.
    destruct (order_findMany_page _ _ _ _ _ _ Hn Hpos Hf) as [Hlen Hsorted].
    rewrite length_fmap, <- list_fmap_compose. split; [done|].
    rewrite fmap_id_ext; done.
Qed.

End ListingFacts.

(** ** Authentication *)

Lemma split_spaces_app (a r : string) :
  spaceless a -> split_spaces (a ++ " " ++ r)%string = a :: split_spaces r.
Proof.
  induction a as [|c a IH]; intros Ha; [done|].
  destruct Ha as [Hc Ha].
  change (String c a ++ " " ++ r)%string with (String c (a ++ " " ++ r)%string).
  cbn [split_spaces]. rewrite decide_False by done. by rewrite IH.
Qed.

Lemma split_spaces_spaceless (s : string) :
  spaceless s -> split_spaces s = [s].
Proof.
  induction s as [|c s IH]; intros Hs; [done|].
  destruct Hs as [Hc Hs].
  cbn [split_spaces]. rewrite decide_False by done. by rewrite IH.
Qed.

(** X12. The middleware takes the second word of the Authorization header
    as the token and does not look at the first: any scheme word gives the
    outcome of [Bearer], and a header of one word (or none) is answered 401
    NO_TOKEN without the token being verified. *)
Theorem authorization_scheme_not_checked
    (verifyAccessToken : string -> VerifyError + JWTPayload.t)
    (accounts : gmap Z Account.t) (scheme token : string) :
  spaceless scheme -> spaceless token ->
  authenticateToken verifyAccessToken accounts (Some (scheme ++ " " ++ token)%string)
  = authenticateToken verifyAccessToken accounts (Some ("Bearer " ++ token)%string)
  /\ authenticateToken verifyAccessToken accounts (Some scheme) = inl NO_TOKEN
  /\ authenticateToken verifyAccessToken accounts None = inl NO_TOKEN.
Proof.
  intros Hs Ht.
  assert (Htok : forall w, spaceless w ->
            header_token (Some (w ++ " " ++ token)%string) = Some token).
  { intros w Hw. unfold header_token.
    rewrite decide_False by (by destruct w).
    by rewrite split_spaces_app, split_spaces_spaceless. }
  split; [|split; [|done]].
  - unfold authenticateToken. rewrite (Htok scheme Hs).
    change ("Bearer " ++ token)%string with ("Bearer" ++ " " ++ token)%string.
    rewrite (Htok "Bearer"); [done|]. by repeat split.
  - unfold authenticateToken, header_token.
    destruct (decide (scheme = "")) as [->|_]; [done|].
    by rewrite split_spaces_spaceless.
Qed.

(** What a successful authentication is made of. *)
Lemma authenticateToken_inr verifyAccessToken accounts authorization u :
  authenticateToken verifyAccessToken accounts authorization = inr u ->
  exists token account,
    header_token authorization = Some token
    /\ verifyAccessToken token = inr (ReqUser.payload u)
    /\ accounts !! JWTPayload.userId (ReqUser.payload u) = Some account
    /\ Account.isActive account = true
    /\ ReqUser.isActive u = true
    /\ ReqUser.isVerified u = Account.isVerified account.
Proof.
  unfold authenticateToken.
  destruct (header_token authorization) as [token|]; [|done].
  destruct (no_token _); [done|]. cbn [default from_option id].
  destruct (verifyAccessToken token) as [[]|payload] eqn:Hv; try done.
  destruct (accounts !! JWTPayload.userId payload) as [account|] eqn:Ha; [|done].
  destruct (Account.isActive account) eqn:Hact; [|done].
  intros [= <-]. exists token, account. by rewrite Hv.
Qed.

(** X13. The identity and the role of [req.user] are the token's: they are
    the payload [jwt.verify] returns, for an account that exists and is
    active.  Of the users table only the account's existence and its flags
    [isActive] and [isVerified] are consulted, so two tables that agree on
    these (and differ, say, in the role or the e-mail of an account)
    authenticate alike. *)
Theorem role_comes_from_the_token
    (verifyAccessToken : string -> VerifyError + JWTPayload.t)
    (accounts accounts' : gmap Z Account.t) (authorization : option string) :
  (forall id,
     (fun a => (Account.isActive a, Account.isVerified a)) <$> accounts !! id
     = (fun a => (Account.isActive a, Account.isVerified a)) <$> accounts' !! id) ->
  authenticateToken verifyAccessToken accounts authorization
  = authenticateToken verifyAccessToken accounts' authorization
  /\ forall u,
       authenticateToken verifyAccessToken accounts authorization = inr u ->
       exists token,
         header_token authorization = Some token
         /\ verifyAccessToken token = inr (ReqUser.payload u)
         /\ is_Some (accounts !! JWTPayload.userId (ReqUser.payload u))
         /\ ReqUser.isActive u = true.
Proof.
  intros Hagree. split.
  - unfold authenticateToken. destruct (no_token _); [done|].
    destruct (verifyAccessToken _) as [e|payload]; [done|].
    specialize (Hagree (JWTPayload.userId payload)).
    destruct (accounts !! _) as [a|], (accounts' !! _) as [a'|]; try done.
    cbn in Hagree. injection Hagree as -> ->. done.
  - intros u (token & account & Htok & Hv & Ha & _ & Hact & _)%authenticateToken_inr.
    exists token. by rewrite Ha.
Qed.

(** ** The order routes *)

Section RouterFacts.

Variable accepts : Write -> bool.
Variable verifyAccessToken : string -> VerifyError + JWTPayload.t.
Variable accounts : gmap Z Account.t.
Variable newest_first : list Order.t -> list Order.t.
Variable parse_Date : string -> option Z.
Variable next_day : Z -> Z.


Lemma orderRoutes_cases (route : Route.t) :
  route ∈ orderRoutes ->
  (Route.middlewares route = [MW_authenticateToken]
   /\ (Route.handler route = H_getUserOrders \/ Route.handler route = H_createOrder
       \/ Route.handler route = H_getOrderById \/ Route.handler route = H_cancelOrder))
  \/ (Route.middlewares route = [MW_authenticateToken; MW_requireAdmin]
      /\ (Route.handler route = H_getAllOrders
          \/ Route.handler route = H_updateOrderStatus)).
Proof.
  unfold orderRoutes. rewrite !elem_of_cons, elem_of_nil.
  intros [-> | [-> | [-> | [-> | [-> | [-> | []]]]]]]; cbn; tauto.
Qed.

(** X14. Every order route authenticates first: when [authenticateToken]
    refuses the request, its answer is the route's answer and nothing is
    written; otherwise the handler runs with the authenticated user, so that
    no handler ever fails on an absent [req.user]. *)
Theorem order_routes_authenticate_first (route : Route.t) (now : Z) (req : Req.t)
    (db : DB) :
  route ∈ orderRoutes ->
  match authenticateToken verifyAccessToken accounts (Req.authorization req) with
  | inl f => serve accepts verifyAccessToken accounts newest_first parse_Date next_day
        route now req db = (db, Unauthorized f)
  | inr u =>
      (serve accepts verifyAccessToken accounts newest_first parse_Date next_day
        route now req db = run_handler accepts newest_first parse_Date next_day
          (Route.handler route) now req (Some u) db
       \/ serve accepts verifyAccessToken accounts newest_first parse_Date next_day
        route now req db = (db, Unauthorized ADMIN_REQUIRED))
      /\ forall h, snd (serve accepts verifyAccessToken accounts newest_first parse_Date next_day
        route now req db) <> HandlerError h
  end.
Proof.
  intros Hr. unfold serve.
  destruct (orderRoutes_cases route Hr) as [[-> Hh]|[-> Hh]];
    cbn [run_middlewares];
    destruct (authenticateToken verifyAccessToken accounts (Req.authorization req)) as [f|u]; try done.
  - split; [by left|]. intros h.
    destruct Hh as [-> | [-> | [-> | ->]]]; cbn [run_handler]; try done;
      by destruct (_ : DB * Response).
  - unfold requireAdmin. case_bool_decide.
    + split; [by right|done].
    + split; [by left|]. intros h.
      destruct Hh as [->| ->]; cbn [run_handler]; try done;
        by destruct (_ : DB * Response).
Qed.

(** X15. The routes behind [requireAdmin] are the listing of all orders and
    the status update, and no others; for a token whose role is not ADMIN
    they answer 403 ADMIN_REQUIRED and write nothing, whatever the request
    says, and for a token whose role is ADMIN the handler runs. *)
Theorem admin_routes_need_admin_role (route : Route.t) (now : Z) (req : Req.t)
    (db : DB) (u : ReqUser.t) :
  route ∈ orderRoutes ->
  authenticateToken verifyAccessToken accounts (Req.authorization req) = inr u ->
  (admin_only route
   <-> Route.handler route = H_getAllOrders
       \/ Route.handler route = H_updateOrderStatus)
  /\ (admin_only route ->
      if decide (JWTPayload.role (ReqUser.payload u) = "ADMIN")
      then serve accepts verifyAccessToken accounts newest_first parse_Date next_day
        route now req db
           = run_handler accepts newest_first parse_Date next_day
          (Route.handler route) now req (Some u) db
      else serve accepts verifyAccessToken accounts newest_first parse_Date next_day
        route now req db = (db, Unauthorized ADMIN_REQUIRED))
  /\ (~ admin_only route ->
      serve accepts verifyAccessToken accounts newest_first parse_Date next_day
        route now req db = run_handler accepts newest_first parse_Date next_day
          (Route.handler route) now req (Some u) db).
Proof.
  intros Hr Hu. unfold serve, admin_only.
  destruct (orderRoutes_cases route Hr) as [[-> Hh]|[-> Hh]];
    cbn [run_middlewares]; rewrite Hu.
  - split; [|split; [|done]].
    + rewrite list_elem_of_singleton. split; [done|].
      intros [H|H]; rewrite H in Hh; destruct Hh as [|[|[|]]]; done.
    + by intros ?%list_elem_of_singleton.
  - split; [|split].
    + split; [done|]. intros _. rewrite !elem_of_cons. tauto.
    + intros _. unfold requireAdmin.
      destruct (decide _) as [Hadm|Hadm].
      * by rewrite bool_decide_eq_false_2 by (by intros ?).
      * by rewrite bool_decide_eq_true_2.
    + intros []. rewrite !elem_of_cons. tauto.
Qed.

(** X16. What a caller whose token does not carry the ADMIN role can do to
    the stored orders, through any order route and with any request: each
    order is left exactly as it was, or it is a pending order of the caller
    that the request cancelled, or it is a new pending order of the
    caller. *)
Theorem clients_change_only_their_orders (route : Route.t) (now : Z) (req : Req.t)
    (db : DB) (u : ReqUser.t) (id : Z) :
  route ∈ orderRoutes ->
  authenticateToken verifyAccessToken accounts (Req.authorization req) = inr u ->
  JWTPayload.role (ReqUser.payload u) <> "ADMIN" ->
  let db' := fst (serve accepts verifyAccessToken accounts newest_first parse_Date next_day
        route now req db) in
  orders db' !! id = orders db !! id
  \/ (exists o,
        orders db !! id = Some o
        /\ Order.userId o = JWTPayload.userId (ReqUser.payload u)
        /\ Order.status o = PENDING
        /\ Route.handler route = H_cancelOrder
        /\ Req.id req = Some id
        /\ orders db' !! id = Some (with_status o CANCELLED now))
  \/ (exists o,
        orders db !! id = None
        /\ orders db' !! id = Some o
        /\ Order.userId o = JWTPayload.userId (ReqUser.payload u)
        /\ Order.status o = PENDING
        /\ Route.handler route = H_createOrder).
Proof.
  intros Hr Hu Hrole db'. subst db'. unfold serve.
  destruct (orderRoutes_cases route Hr) as [[-> Hh]|[-> Hh]];
    cbn [run_middlewares]; rewrite Hu.
  2:{ unfold requireAdmin. rewrite bool_decide_eq_true_2 by done. by left. }
  destruct Hh as [Hh | [Hh | [Hh | Hh]]]; rewrite Hh; cbn [run_handler];
    [by left| |by left|].
  - destruct (createOrder_effect accepts now (ReqUser.payload u) (Req.body req) db)
      as [[_ Hdb]|(o & lines & rows & Hplaced & _)];
      destruct (createOrder accepts now _ _ db) as [db' r]; cbn [fst] in *.
    + left. by rewrite Hdb.
    + destruct Hplaced as [_ _ Hfresh Huser Hst _ _ _ _ _ _ _ ->]. cbn [orders].
      destruct (decide (id = Order.id o)) as [->|Hne].
      * right; right. exists o. by rewrite lookup_insert_eq.
      * left. by rewrite lookup_insert_ne.
  - destruct (cancelOrder_effect accepts now (ReqUser.payload u) (Req.id req) db)
      as [[_ Hdb]|(orderId & order & Hid & Ho & Huser & Hst & Heq)].
    + destruct (cancelOrder accepts now _ _ db) as [db' r]; cbn [fst] in *.
      left. by rewrite Hdb.
    + rewrite Heq. cbn [fst status_changed orders].
      destruct (decide (id = orderId)) as [->|Hne].
      * right; left. exists order. by rewrite lookup_insert_eq.
      * left. by rewrite lookup_insert_ne.
Qed.

End RouterFacts.

(** ** Reading and cancelling an order *)


(** X18. A new order can be cancelled by the user who placed it, once.
    After a successful [createOrder], [cancelOrder] by that user on the new
    id (with a store that carries out its writes) answers with the order in
    status CANCELLED and stores it; a second cancellation is refused with
    ORDER_CANNOT_BE_CANCELLED, and a cancellation by any other user, admin
    or not, is refused with ORDER_ACCESS_DENIED and writes nothing. *)
Theorem created_order_cancelled_once (accepts accepts' : Write -> bool)
    (now now' now'' : Z) (user : JWTPayload.t) (body : CreateOrderInput.t)
    (db db' : DB) (v : OrderView.t) :
  createOrder accepts now user body db = (db', Created (Some v)) ->
  let o := OrderView.order v in
  let db'' := fst (cancelOrder always now' user (Some (Order.id o)) db') in
  snd (cancelOrder always now' user (Some (Order.id o)) db')
  = Updated (with_status o CANCELLED now')
  /\ orders db'' !! Order.id o = Some (with_status o CANCELLED now')
  /\ cancelOrder accepts' now'' user (Some (Order.id o)) db''
     = (db'', Failed ORDER_CANNOT_BE_CANCELLED)
  /\ (forall other : JWTPayload.t,
        JWTPayload.userId other <> JWTPayload.userId user ->
        cancelOrder accepts' now' other (Some (Order.id o)) db'
        = (db', Failed ORDER_ACCESS_DENIED)).
Proof.
  intros Hcreate o db''.
  destruct (createOrder_cases accepts now user body db db' _ Hcreate)
    as [(f & [=] & _)|(o' & lines & rows & Hp & [= Hv])].
  assert (o = o') as Ho by (subst o; by rewrite Hv). clearbody o. subst o'.
  destruct Hp as [_ _ Hfresh Hu Hst _ _ _ _ _ _ _ Hdb].
  assert (Hstored : orders db' !! Order.id o = Some o).
  { rewrite Hdb. cbn [orders]. by rewrite lookup_insert_eq. }
  assert (Hcancel :
    cancelOrder always now' user (Some (Order.id o)) db'
    = (status_changed db' (Order.id o) o CANCELLED now'
         (Notification.mk (next_row (notifications db')) (JWTPayload.userId user)
            "Pedido cancelado"
            (NotificationCreate.message
               (cancelled_notification (JWTPayload.userId user) (Order.id o)))
            ORDER false (Some (Order.id o)) now'),
       Updated (with_status o CANCELLED now'))).
  { unfold cancelOrder, order_findUnique. cbn [OrderWhere.id OrderWhere.userId].
    rewrite Hstored.
    rewrite bool_decide_eq_false_2 by (by intros ?).
    rewrite bool_decide_eq_false_2 by (by intros ?).
    by rewrite (status_transaction always now' (Order.id o) "CANCELLED" _ db' o
                  CANCELLED Hstored eq_refl). }
  subst db''. rewrite Hcancel. cbn [fst snd status_changed orders].
  split; [done|]. split; [by rewrite lookup_insert_eq|]. split.
  - unfold cancelOrder, order_findUnique.
    cbn [OrderWhere.id OrderWhere.userId orders status_changed].
    rewrite lookup_insert_eq. cbn [with_status Order.userId Order.status].
    rewrite bool_decide_eq_false_2 by (by intros ?).
    by rewrite bool_decide_eq_true_2.
  - intros other Hother. unfold cancelOrder, order_findUnique.
    cbn [OrderWhere.id OrderWhere.userId]. rewrite Hstored.
    rewrite bool_decide_eq_true_2; [done|]. by rewrite Hu.
Qed.

(** ** The properties on the sample data *)

Lemma newest_first_sort_rows (l : list Order.t) : newest_first_sort l ≡ₚ l.
Proof. apply merge_sort_Permutation. Qed.

Lemma newest_first_sort_sorted (l : list Order.t) :
  Sorted not_older (newest_first_sort l).
Proof. apply (Sorted_merge_sort not_older). Qed.

Lemma sample_references :
  references_resolve Sample.db1 /\ addressed_to_owner Sample.db1.
Proof.
  assert (Hk : keyed Sample.db).
  { intros k o H. change (orders Sample.db) with (∅ : gmap Z Order.t) in H.
    by rewrite lookup_empty in H. }
  assert (Hr : references_resolve Sample.db).
  { split; [intros it H|intros n oid H _]; cbn in H; by apply elem_of_nil in H. }
  split.
  - by apply (handle_references always 1000
                (CreateOrder Sample.ana (Sample.request [Sample.line 1 (Some 2)]))
                Sample.db).
  - apply (handle_addressed always 1000
             (CreateOrder Sample.ana (Sample.request [Sample.line 1 (Some 2)]))
             Sample.db); [done|].
    intros n oid o H. cbn in H. by apply elem_of_nil in H.
Qed.

Lemma sample_cancelled :
  orders Scenario.cancelled !! 1 = Some (with_status Sample.order1 CANCELLED 1002).
Proof. vm_compute. reflexivity. Qed.

Lemma orders_follow_the_table_witness :
  exists o',
    orders (run always Scenario.busy_day Sample.db1) !! 1 = Some o'
    /\ same_but_status Sample.order1 o'
    /\ rtc transition PENDING (Order.status o').
Proof.
  exact (orders_follow_the_table always Scenario.busy_day Sample.db1 1 Sample.order1
           sample_order1).
Defined.

Lemma final_statuses_stay_witness :
  updateOrderStatus always 1003 (Some 1) "PREPARING" Scenario.cancelled
  = (Scenario.cancelled, Failed (INVALID_STATUS_TRANSITION CANCELLED "PREPARING"))
  /\ exists o',
       orders (run always Scenario.busy_day Scenario.cancelled) !! 1 = Some o'
       /\ Order.status o' = CANCELLED.
Proof.
  destruct (final_statuses_stay always Scenario.cancelled 1
              (with_status Sample.order1 CANCELLED 1002) sample_cancelled
              (or_intror eq_refl)) as (Hupdate & _ & Hrun).
  split; [exact (Hupdate 1003 "PREPARING")|exact (Hrun Scenario.busy_day)].
Defined.

Lemma references_stay_resolved_witness :
  keyed (run always Scenario.busy_day Sample.db1)
  /\ references_resolve (run always Scenario.busy_day Sample.db1).
Proof.
  exact (references_stay_resolved always Scenario.busy_day Sample.db1
           (proj1 sample_keyed) (proj1 sample_references)).
Defined.

Lemma notifications_reach_the_owner_witness :
  addressed_to_owner (run always Scenario.busy_day Sample.db1).
Proof.
  exact (notifications_reach_the_owner always Scenario.busy_day Sample.db1
           (proj1 sample_keyed) (proj1 sample_references) (proj2 sample_references)).
Defined.

Lemma sample_created :
  createOrder always 1000 Sample.ana (Sample.request [Sample.line 1 (Some 2)]) Sample.db
  = (Sample.db1, Created (Some (include_relations false Sample.db1 Sample.order1))).
Proof. vm_compute. reflexivity. Qed.

Lemma created_order_is_readable_witness :
  (exists v',
     getOrderById Scenario.admin (Some 1) Sample.db1 = Fetched v'
     /\ OrderView.order v' = Sample.order1)
  /\ getOrderById Sample.luis (Some 1) Sample.db1 = Failed ORDER_NOT_FOUND.
Proof.
  destruct (created_order_is_readable always 1000 Sample.ana
              (Sample.request [Sample.line 1 (Some 2)]) Sample.db Sample.db1
              (include_relations false Sample.db1 Sample.order1)
              [Sample.line 1 (Some 2)])
    as (_ & _ & _ & Hread & Hhide).
  - split; [intros it H|intros n oid H _]; cbn in H; by apply elem_of_nil in H.
  - reflexivity.
  - exact sample_created.
  - split.
    + destruct (Hread Scenario.admin (or_intror eq_refl)) as (v' & Hv & Ho & _).
      exists v'. split; [exact Hv|exact Ho].
    + apply Hhide; vm_compute; discriminate.
Defined.

Lemma lines_stored_as_sent_witness :
  exists rows,
    orderItems (fst (createOrder always 1000 Sample.ana
                       (Sample.request [Sample.line 1 (Some 2); Sample.line 2 None])
                       Sample.db))
    = orderItems Sample.db ++ rows
    /\ length rows = 2%nat.
Proof.
  destruct (lines_stored_as_sent always 1000 Sample.ana
              (Sample.request [Sample.line 1 (Some 2); Sample.line 2 None]) Sample.db
              [Sample.line 1 (Some 2); Sample.line 2 None])
    as (rows & Hrows & Hall).
  - reflexivity.
  - vm_compute. reflexivity.
  - exists rows. split; [exact Hrows|].
    symmetry. exact (Forall2_length _ _ _ Hall).
Defined.

Lemma sample_listing :
  exists pg,
    getUserOrders newest_first_sort Sample.ana Scenario.pending_query Sample.db2
    = Listed [include_lines Sample.db2 Sample.order1] pg.
Proof. eexists. vm_compute. reflexivity. Qed.

Lemma getUserOrders_own_orders_witness :
  exists data pg,
    getUserOrders newest_first_sort Sample.ana Scenario.pending_query Sample.db2
    = Listed data pg
    /\ (forall v, v ∈ data ->
          Order.userId (OrderView.order v) = 7
          /\ status_name (Order.status (OrderView.order v)) = "PENDING").
Proof.
  destruct sample_listing as [pg Hl].
  exists [include_lines Sample.db2 Sample.order1], pg. split; [exact Hl|].
  intros v Hv.
  destruct (getUserOrders_own_orders newest_first_sort newest_first_sort_rows
              Sample.ana Scenario.pending_query Sample.db2 _ pg Hl) as (Hdata & _).
  destruct (Hdata v Hv) as (_ & Hu & Hs & _).
  split; [exact Hu|]. apply Hs. reflexivity.
Defined.


Lemma getUserOrders_first_page_witness :
  exists data pg,
    getUserOrders newest_first_sort Sample.luis Scenario.pending_query Sample.db2
    = Listed data pg.
Proof.
  destruct (getUserOrders_first_page newest_first_sort newest_first_sort_rows
              Sample.luis Scenario.pending_query Sample.db2 10)
    as (data & pg & Hl & _).
  - reflexivity.
  - vm_compute. reflexivity.
  - lia.
  - intros s [= <-]. by exists PENDING.
  - by exists data, pg.
Defined.

Lemma sample_day :
  exists data pg,
    getAllOrders newest_first_sort Scenario.parse_Date Scenario.next_day
      Scenario.day_query Sample.db2
    = Listed data pg
    /\ length data = 2%nat.
Proof. eexists _, _. split; vm_compute; reflexivity. Qed.

Lemma getAllOrders_filtered_witness :
  exists data pg,
    getAllOrders newest_first_sort Scenario.parse_Date Scenario.next_day
      Scenario.day_query Sample.db2
    = Listed data pg
    /\ length data = 2%nat
    /\ forall v, v ∈ data -> 0 <= Order.createdAt (AdminOrderView.order v) < 86400000.
Proof.
  destruct sample_day as (data & pg & Hl & Hlen).
  exists data, pg. split; [exact Hl|]. split; [exact Hlen|].
  destruct (getAllOrders_filtered newest_first_sort Scenario.parse_Date
              Scenario.next_day newest_first_sort_rows newest_first_sort_sorted
              Scenario.day_query Sample.db2 data pg Hl)
    as (period & (startDate & [= <-] & ->) & Hdata & _).
  intros v Hv. destruct (Hdata v Hv) as (_ & (_ & _ & Hperiod) & _).
  exact Hperiod.
Defined.

Lemma authorization_scheme_not_checked_witness :
  authenticateToken Scenario.verify Scenario.accounts (Some "Basic ana-token")
  = authenticateToken Scenario.verify Scenario.accounts (Some "Bearer ana-token")
  /\ authenticateToken Scenario.verify Scenario.accounts (Some "ana-token")
     = inl NO_TOKEN.
Proof.
  destruct (authorization_scheme_not_checked Scenario.verify Scenario.accounts
              "Basic" "ana-token") as (Hsame & _ & _).
  - by repeat split.
  - by repeat split.
  - split; [exact Hsame|].
    apply (authorization_scheme_not_checked Scenario.verify Scenario.accounts
             "ana-token" "").
    + by repeat split.
    + exact I.
Defined.

Lemma role_comes_from_the_token_witness :
  authenticateToken Scenario.verify Scenario.accounts (Some "Bearer admin-token")
  = authenticateToken Scenario.verify Scenario.demoted (Some "Bearer admin-token").
Proof.
  apply (role_comes_from_the_token Scenario.verify Scenario.accounts Scenario.demoted).
  intros id. unfold Scenario.demoted. rewrite lookup_fmap.
  destruct (Scenario.accounts !! id); reflexivity.
Defined.

Lemma sample_routes :
  Scenario.cancel_route ∈ orderRoutes /\ Scenario.status_route ∈ orderRoutes.
Proof. unfold orderRoutes. rewrite !elem_of_cons. split; tauto. Qed.

Lemma sample_authenticated :
  authenticateToken Scenario.verify Scenario.accounts (Some "Bearer ana-token")
  = inr (ReqUser.mk Sample.ana true true).
Proof. vm_compute. reflexivity. Qed.

Lemma order_routes_authenticate_first_witness :
  serve always Scenario.verify Scenario.accounts newest_first_sort
    Scenario.parse_Date Scenario.next_day Scenario.cancel_route 1002
    (Scenario.request (Some "Bearer old-token") (Some 1)) Sample.db1
  = (Sample.db1, Unauthorized TOKEN_EXPIRED).
Proof.
  exact (order_routes_authenticate_first always Scenario.verify Scenario.accounts
           newest_first_sort Scenario.parse_Date Scenario.next_day
           Scenario.cancel_route 1002
           (Scenario.request (Some "Bearer old-token") (Some 1)) Sample.db1
           (proj1 sample_routes)).
Defined.

Lemma admin_routes_need_admin_role_witness :
  serve always Scenario.verify Scenario.accounts newest_first_sort
    Scenario.parse_Date Scenario.next_day Scenario.status_route 1002
    (Scenario.request (Some "Bearer ana-token") (Some 1)) Sample.db1
  = (Sample.db1, Unauthorized ADMIN_REQUIRED).
Proof.
  destruct (admin_routes_need_admin_role always Scenario.verify Scenario.accounts
              newest_first_sort Scenario.parse_Date Scenario.next_day
              Scenario.status_route 1002
              (Scenario.request (Some "Bearer ana-token") (Some 1)) Sample.db1
              (ReqUser.mk Sample.ana true true) (proj2 sample_routes)
              sample_authenticated) as (_ & Hadmin & _).
  apply Hadmin. unfold admin_only. cbn. rewrite !elem_of_cons. tauto.
Defined.

Lemma clients_change_only_their_orders_witness :
  orders (fst (serve always Scenario.verify Scenario.accounts newest_first_sort
                 Scenario.parse_Date Scenario.next_day Scenario.cancel_route 1002
                 (Scenario.request (Some "Bearer ana-token") (Some 1)) Sample.db2))
    !! 2
  = orders Sample.db2 !! 2.
Proof.
  destruct (clients_change_only_their_orders always Scenario.verify Scenario.accounts
              newest_first_sort Scenario.parse_Date Scenario.next_day
              Scenario.cancel_route 1002
              (Scenario.request (Some "Bearer ana-token") (Some 1)) Sample.db2
              (ReqUser.mk Sample.ana true true) 2 (proj1 sample_routes)
              sample_authenticated)
    as [Hsame|[(o & _ & _ & _ & _ & Hid & _)|(o & _ & _ & _ & _ & Hh)]].
  - vm_compute. discriminate.
  - exact Hsame.
  - discriminate Hid.
  - discriminate Hh.
Defined.


Lemma created_order_cancelled_once_witness :
  snd (cancelOrder always 1002 Sample.ana (Some 1) Sample.db1)
  = Updated (with_status Sample.order1 CANCELLED 1002)
  /\ cancelOrder always 1003 Sample.ana (Some 1) Scenario.cancelled
     = (Scenario.cancelled, Failed ORDER_CANNOT_BE_CANCELLED)
  /\ cancelOrder always 1002 Scenario.admin (Some 1) Sample.db1
     = (Sample.db1, Failed ORDER_ACCESS_DENIED).
Proof.
  destruct (created_order_cancelled_once always always 1000 1002 1003 Sample.ana
              (Sample.request [Sample.line 1 (Some 2)]) Sample.db Sample.db1
              (include_relations false Sample.db1 Sample.order1) sample_created)
    as (Hcancel & _ & Htwice & Hother).
  split; [exact Hcancel|]. split; [exact Htwice|].
  apply Hother. vm_compute. discriminate.
Defined.

(** ** The other guards *)

(** X19. [optionalAuth] lets every request through and, on a request that
    has no user yet, sets [req.user] exactly when [authenticateToken] would
    have accepted the request, to the same user. *)
Theorem optionalAuth_agrees_with_authenticateToken
    (verifyAccessToken : string -> VerifyError + JWTPayload.t)
    (accounts : gmap Z Account.t) (authorization : option string) :
  optionalAuth verifyAccessToken accounts authorization None
  = match authenticateToken verifyAccessToken accounts authorization with
    | inr u => Some u
    | inl _ => None
    end.
Proof.
  unfold optionalAuth, authenticateToken.
  destruct (no_token _); [done|].
  destruct (verifyAccessToken _) as [[]|payload]; try done.
  destruct (accounts !! _) as [account|]; [|done].
  by destruct (Account.isActive account).
Qed.

(** X20. The guards on an authenticated user: [requireAdmin] lets through
    exactly the tokens whose role is ADMIN and [requireClient] exactly those
    whose role is CLIENT, so no user passes both; [requireVerifiedEmail]
    lets through exactly the users whose account has a verified e-mail; and
    without a user each of the three answers 401 AUTH_REQUIRED. *)
Theorem guards_after_authentication
    (verifyAccessToken : string -> VerifyError + JWTPayload.t)
    (accounts : gmap Z Account.t) (authorization : option string) (u : ReqUser.t) :
  authenticateToken verifyAccessToken accounts authorization = inr u ->
  (requireAdmin (Some u) = None <-> JWTPayload.role (ReqUser.payload u) = "ADMIN")
  /\ (requireClient (Some u) = None <-> JWTPayload.role (ReqUser.payload u) = "CLIENT")
  /\ ~ (requireAdmin (Some u) = None /\ requireClient (Some u) = None)
  /\ (requireVerifiedEmail (Some u) = None
      <-> exists account,
            accounts !! JWTPayload.userId (ReqUser.payload u) = Some account
            /\ Account.isVerified account = true)
  /\ requireAdmin None = Some AUTH_REQUIRED
  /\ requireClient None = Some AUTH_REQUIRED
  /\ requireVerifiedEmail None = Some AUTH_REQUIRED.
Proof.
  intros (token & account & _ & _ & Ha & _ & _ & Hver)%authenticateToken_inr.
  assert (Hadmin : requireAdmin (Some u) = None
                   <-> JWTPayload.role (ReqUser.payload u) = "ADMIN").
  { unfold requireAdmin. case_bool_decide as H; split; try done;
      intros _; by destruct (decide (JWTPayload.role (ReqUser.payload u) = "ADMIN")). }
  assert (Hclient : requireClient (Some u) = None
                    <-> JWTPayload.role (ReqUser.payload u) = "CLIENT").
  { unfold requireClient. case_bool_decide as H; split; try done;
      intros _; by destruct (decide (JWTPayload.role (ReqUser.payload u) = "CLIENT")). }
  split; [done|]. split; [done|]. split.
  { rewrite Hadmin, Hclient. intros [-> [=]]. }
  split; [|done].
  unfold requireVerifiedEmail. rewrite Hver, Ha. split.
  - destruct (Account.isVerified account) eqn:Hv; [|done]. intros _. eauto.
  - intros (account' & [= <-] & ->). done.
Qed.


Lemma guards_after_authentication_witness :
  requireAdmin (Some (ReqUser.mk Sample.ana true true)) <> None
  /\ requireVerifiedEmail (Some (ReqUser.mk Sample.ana true true)) = None.
Proof.
  destruct (guards_after_authentication Scenario.verify Scenario.accounts
              (Some "Bearer ana-token") (ReqUser.mk Sample.ana true true)
              sample_authenticated) as (Hadmin & _ & _ & Hver & _).
  split.
  - intros E. apply Hadmin in E. discriminate E.
  - apply Hver. eexists. split; vm_compute; reflexivity.
Defined.

